(** * A shallow embedding of the DDD/CQRS Python skeleton
      (infrastructures/ddd/python/src).

    The development follows the layers of the source:
    - domain/models: [ExampleModel] and its factories and methods;
    - infrastructure/persistence: the write and read projections;
    - application/mappers: [ExampleMapper];
    - infrastructure/repositories/impl: the in-memory command and query
      repositories;
    - infrastructure/queues: the in-memory event bus;
    - application/services/impl: [ExampleService];
    - api/middleware: the ownership, unit-of-work and error-handling
      middleware, and the routes of main.py;
    - the unit-of-work and ownership middleware of the sibling skeleton
      infrastructures/rest-ddd/python/src ([RestDdd]).

    Python's [datetime] values are modelled as [Z] (opaque instants),
    [uuid.uuid4()] and [datetime.utcnow()] as reads of a counter and a
    clock carried in the world state.  Exceptions are the constructors of
    [exn]; an [async] method is a function of the world returning the
    new world and either a value or a raised exception. *)

From stdpp Require Import base gmap strings list fin_maps.
From Stdlib Require Import Ascii ZArith Lia.

Open Scope string_scope.

(* ------------------------------------------------------------------ *)
(** ** Python string helpers *)

(** [not s or not s.strip()]: the string is empty or made of whitespace
    only ([str.strip] removes the ASCII whitespace of [Ascii.is_space]). *)
Fixpoint py_blank (s : string) : bool :=
  match s with
  | EmptyString => true
  | String c rest => Ascii.is_space c && py_blank rest
  end.

(** [len(s)] on an ASCII string. *)
Definition py_len (s : string) : Z := Z.of_nat (String.length s).

(** [str.upper()] on ASCII characters. *)
Definition ascii_upper (c : ascii) : ascii :=
  let n := Ascii.nat_of_ascii c in
  if Nat.leb 97 n && Nat.leb n 122 then Ascii.ascii_of_nat (n - 32)%nat else c.

Fixpoint py_upper (s : string) : string :=
  match s with
  | EmptyString => EmptyString
  | String c rest => String (ascii_upper c) (py_upper rest)
  end.

(** [sub in s] for strings. *)
Fixpoint py_prefix (p s : string) : bool :=
  match p, s with
  | EmptyString, _ => true
  | String c p', String d s' => Ascii.eqb c d && py_prefix p' s'
  | String _ _, EmptyString => false
  end.

Fixpoint py_contains (sub s : string) : bool :=
  py_prefix sub s ||
  match s with
  | EmptyString => false
  | String _ rest => py_contains sub rest
  end.

(** Decimal rendering of a counter, used for generated identities. *)
Definition digit (n : nat) : ascii := Ascii.ascii_of_nat (48 + n)%nat.

Fixpoint nat_digits (fuel n : nat) (acc : string) : string :=
  match fuel with
  | O => acc
  | S fuel' =>
      let acc' := String (digit (Nat.modulo n 10)) acc in
      if Nat.ltb n 10 then acc' else nat_digits fuel' (Nat.div n 10) acc'
  end.

Definition show_nat (n : nat) : string := nat_digits (S n) n "".

(* ------------------------------------------------------------------ *)
(** ** Exceptions *)

(** application/errors/example_service_exception.py: [ExampleErrorCode]. *)
Inductive ExampleErrorCode :=
  | NOT_FOUND | VALIDATION_FAILED | CONFLICT | UNAUTHORIZED | ALREADY_EXISTS.

(** The [.value] of each member of the enumeration. *)
Definition error_code_value (c : ExampleErrorCode) : string :=
  match c with
  | NOT_FOUND => "not_found"
  | VALIDATION_FAILED => "validation_failed"
  | CONFLICT => "conflict"
  | UNAUTHORIZED => "unauthorized"
  | ALREADY_EXISTS => "already_exists"
  end.

(** The exceptions raised by the modelled code.  [ServiceException] is
    [ExampleServiceException(code, details)]; the others are the Python
    built-ins the code raises. *)
Inductive exn :=
  | ServiceException (code : ExampleErrorCode) (details : list (string * string))
  | ValueError (msg : string)
  | PermissionError (msg : string).

Inductive Result (A : Type) :=
  | Ok (a : A)
  | Raise (e : exn).
Arguments Ok {A} a.
Arguments Raise {A} e.

(* ------------------------------------------------------------------ *)
(** ** Domain model: domain/models/example_model.py *)

(** The attributes of an [ExampleModel] instance ([BaseModel] contributes
    [_id], [_created_at] and [_updated_at]). *)
Record ExampleModel := mkExampleModel {
  m_id : string;
  m_created_at : Z;
  m_updated_at : Z;
  m_name : string;
  m_description : string;
  m_owner_id : string;
  m_is_active : bool
}.

(** [ExampleModel.__init__] after [BaseModel.__init__], given the
    generated uuid and the current time. *)
Definition ExampleModel_init (uuid : string) (now : Z) : ExampleModel :=
  {| m_id := uuid; m_created_at := now; m_updated_at := now;
     m_name := ""; m_description := ""; m_owner_id := ""; m_is_active := true |}.

(** [ExampleModel.validate] (which first calls [BaseModel.validate]):
    [None] when it returns, [Some msg] when it raises [ValueError(msg)]. *)
Definition validate (m : ExampleModel) : option string :=
  if py_blank (m_id m) then Some "Model ID cannot be empty"
  else if py_blank (m_name m) then Some "Example name cannot be empty"
  else if Z.ltb 100 (py_len (m_name m)) then Some "Example name cannot exceed 100 characters"
  else if py_blank (m_owner_id m) then Some "Example must have an owner"
  else None.

(** Note: [BaseModel.validate] tests [not self._id] only; an id made of
    spaces passes it.  The generated identities are never blank. *)

(** [ExampleModel.create(p_name, p_description, p_owner_id)], given the
    fresh uuid and the clock reading of [ExampleModel()]. *)
Definition create (uuid : string) (now : Z)
    (p_name p_description p_owner_id : string) : Result ExampleModel :=
  let model := {| m_id := uuid; m_created_at := now; m_updated_at := now;
                  m_name := p_name; m_description := p_description;
                  m_owner_id := p_owner_id; m_is_active := true |} in
  match validate model with
  | None => Ok model
  | Some msg => Raise (ValueError msg)
  end.

(** [ExampleModel.hydrate(...)]: every attribute copied, no validation. *)
Definition hydrate (p_id p_name p_description p_owner_id : string)
    (p_is_active : bool) (p_created_at p_updated_at : Z) : ExampleModel :=
  {| m_id := p_id; m_created_at := p_created_at; m_updated_at := p_updated_at;
     m_name := p_name; m_description := p_description;
     m_owner_id := p_owner_id; m_is_active := p_is_active |}.

(** [model.update_details(p_name, p_description)] mutates the instance in
    place; the result is the instance after the call together with the
    exception it raised, if any.  The attributes are assigned before
    [self.validate()] runs, so a failing validation leaves them changed. *)
Definition update_details (m : ExampleModel) (p_name p_description : string)
    (now : Z) : ExampleModel * option exn :=
  if py_blank p_name then (m, Some (ValueError "Name cannot be empty"))
  else
    let m' := {| m_id := m_id m; m_created_at := m_created_at m;
                 m_updated_at := now; m_name := p_name;
                 m_description := p_description; m_owner_id := m_owner_id m;
                 m_is_active := m_is_active m |} in
    match validate m' with
    | None => (m', None)
    | Some msg => (m', Some (ValueError msg))
    end.

Definition set_active (b : bool) (m : ExampleModel) (now : Z) : ExampleModel :=
  {| m_id := m_id m; m_created_at := m_created_at m; m_updated_at := now;
     m_name := m_name m; m_description := m_description m;
     m_owner_id := m_owner_id m; m_is_active := b |}.

(** [model.activate()] and [model.deactivate()]. *)
Definition activate (m : ExampleModel) (now : Z) : ExampleModel := set_active true m now.
Definition deactivate (m : ExampleModel) (now : Z) : ExampleModel := set_active false m now.

(** [model.validate_ownership(p_user_id)]. *)
Definition validate_ownership (m : ExampleModel) (p_user_id : string) : option exn :=
  if String.eqb (m_owner_id m) p_user_id then None
  else Some (PermissionError "User does not own this resource").

(** [model._owner_id = p_user_id], as done by the service. *)
Definition set_owner (m : ExampleModel) (p_user_id : string) : ExampleModel :=
  {| m_id := m_id m; m_created_at := m_created_at m; m_updated_at := m_updated_at m;
     m_name := m_name m; m_description := m_description m;
     m_owner_id := p_user_id; m_is_active := m_is_active m |}.

(* ------------------------------------------------------------------ *)
(** ** Persistence: infrastructure/persistence *)

(** [ExampleWriteEntity] (with [BaseWriteEntity.version] and the
    [BaseEntity] attributes). *)
Record ExampleWriteEntity := mkExampleWriteEntity {
  we_id : string;
  we_created_at : Z;
  we_updated_at : Z;
  we_version : Z;
  we_name : string;
  we_description : string;
  we_owner_id : string;
  we_is_active : bool
}.

(** [ExampleWriteEntity()]: defaults, [version = 0].  The two
    [datetime.utcnow()] defaults of [BaseEntity] are always overwritten by
    the mapper and are modelled as the instant [0]. *)
Definition ExampleWriteEntity_init : ExampleWriteEntity :=
  {| we_id := ""; we_created_at := 0; we_updated_at := 0; we_version := 0;
     we_name := ""; we_description := ""; we_owner_id := ""; we_is_active := true |}.

(** [ExampleReadEntity]. *)
Record ExampleReadEntity := mkExampleReadEntity {
  re_id : string;
  re_created_at : Z;
  re_updated_at : Z;
  re_name : string;
  re_description : string;
  re_owner_id : string;
  re_owner_name : string;
  re_is_active : bool;
  re_display_name : string;
  re_status_text : string
}.

(** [ExampleResponse] (api/dto/responses/example_response.py). *)
Record ExampleResponse := mkExampleResponse {
  r_id : string;
  r_name : string;
  r_description : string;
  r_owner_id : string;
  r_owner_name : string;
  r_is_active : bool;
  r_display_name : string;
  r_status_text : string;
  r_created_at : Z;
  r_updated_at : Z
}.

(** [CreateExampleRequest] and [UpdateExampleRequest]. *)
Record CreateExampleRequest := mkCreateExampleRequest {
  cr_name : string;
  cr_description : string
}.

Record UpdateExampleRequest := mkUpdateExampleRequest {
  ur_name : string;
  ur_description : string
}.

(** [CreateExampleRequest.validate] (edge validation): [None] when the
    request is well formed. *)
Definition create_request_validate (r : CreateExampleRequest) : option string :=
  if py_blank (cr_name r) then Some "Name is required"
  else if Z.ltb 100 (py_len (cr_name r)) then Some "Name cannot exceed 100 characters"
  else if Z.ltb 500 (py_len (cr_description r)) then Some "Description cannot exceed 500 characters"
  else None.

(* ------------------------------------------------------------------ *)
(** ** Mapper: application/mappers/example_mapper.py *)

Module ExampleMapper.

(** [to_model_from_request]: [ExampleModel.create(name, description, "")];
    the uuid and clock reading of the constructor are its inputs. *)
Definition to_model_from_request (uuid : string) (now : Z)
    (p_dto : CreateExampleRequest) : Result ExampleModel :=
  create uuid now (cr_name p_dto) (cr_description p_dto) "".

(** [to_write_entity]: a fresh [ExampleWriteEntity()] with seven fields
    copied; [version] keeps its constructor value. *)
Definition to_write_entity (p_model : ExampleModel) : ExampleWriteEntity :=
  let entity := ExampleWriteEntity_init in
  {| we_id := m_id p_model;
     we_created_at := m_created_at p_model;
     we_updated_at := m_updated_at p_model;
     we_version := we_version entity;
     we_name := m_name p_model;
     we_description := m_description p_model;
     we_owner_id := m_owner_id p_model;
     we_is_active := m_is_active p_model |}.

(** [to_model_from_write_entity]: [ExampleModel.hydrate] of the fields. *)
Definition to_model_from_write_entity (p_entity : ExampleWriteEntity) : ExampleModel :=
  hydrate (we_id p_entity) (we_name p_entity) (we_description p_entity)
    (we_owner_id p_entity) (we_is_active p_entity)
    (we_created_at p_entity) (we_updated_at p_entity).

(** [to_response_from_read_entity]. *)
Definition to_response_from_read_entity (p_entity : ExampleReadEntity) : ExampleResponse :=
  {| r_id := re_id p_entity; r_name := re_name p_entity;
     r_description := re_description p_entity; r_owner_id := re_owner_id p_entity;
     r_owner_name := re_owner_name p_entity; r_is_active := re_is_active p_entity;
     r_display_name := re_display_name p_entity; r_status_text := re_status_text p_entity;
     r_created_at := re_created_at p_entity; r_updated_at := re_updated_at p_entity |}.

(** [to_response_from_model]. *)
Definition to_response_from_model (p_model : ExampleModel) : ExampleResponse :=
  {| r_id := m_id p_model; r_name := m_name p_model;
     r_description := m_description p_model; r_owner_id := m_owner_id p_model;
     r_owner_name := ""; r_is_active := m_is_active p_model;
     r_display_name := m_name p_model;
     r_status_text := if m_is_active p_model then "Active" else "Inactive";
     r_created_at := m_created_at p_model; r_updated_at := m_updated_at p_model |}.

(** [update_model_from_request]: [p_model.update_details(name, description)]. *)
Definition update_model_from_request (p_model : ExampleModel)
    (p_request : UpdateExampleRequest) (now : Z) : ExampleModel * option exn :=
  update_details p_model (ur_name p_request) (ur_description p_request) now.

End ExampleMapper.

(* ------------------------------------------------------------------ *)
(** ** Command repository:
       infrastructure/repositories/impl/example_command_repository.py *)

(** [self._in_memory_store: dict[str, ExampleWriteEntity]]. *)
Abbreviation CommandStore := (gmap string ExampleWriteEntity).

Module ExampleCommandRepository.

Definition not_found (p_id : string) : exn :=
  ValueError ("Example " +:+ p_id +:+ " not found").

(** [save_async]: [store[entity.id] = entity]; returns [entity.id]. *)
Definition save_async (p_model : ExampleModel) (store : CommandStore)
    : CommandStore * string :=
  let entity := ExampleMapper.to_write_entity p_model in
  (<[we_id entity := entity]> store, we_id entity).

(** [update_async]: overwrite when the id is present, otherwise raise. *)
Definition update_async (p_model : ExampleModel) (store : CommandStore)
    : Result CommandStore :=
  let entity := ExampleMapper.to_write_entity p_model in
  match store !! we_id entity with
  | Some _ => Ok (<[we_id entity := entity]> store)
  | None => Raise (not_found (we_id entity))
  end.

(** [delete_async]. *)
Definition delete_async (p_id : string) (store : CommandStore) : Result CommandStore :=
  match store !! p_id with
  | Some _ => Ok (delete p_id store)
  | None => Raise (not_found p_id)
  end.

(** [exists_async]: [p_id in store]. *)
Definition exists_async (p_id : string) (store : CommandStore) : bool :=
  bool_decide (is_Some (store !! p_id)).

(** [find_by_id_for_command_async]. *)
Definition find_by_id_for_command_async (p_id : string) (store : CommandStore)
    : Result ExampleModel :=
  match store !! p_id with
  | None => Raise (not_found p_id)
  | Some entity => Ok (ExampleMapper.to_model_from_write_entity entity)
  end.

End ExampleCommandRepository.

(** The store-changing commands a caller can issue on the command
    repository, and the store after one of them (a raising command leaves
    the store as it was: both [update_async] and [delete_async] raise
    before they write). *)
Inductive CommandOp :=
  | OpSave (m : ExampleModel)
  | OpUpdate (m : ExampleModel)
  | OpDelete (p_id : string).

Definition op_target (op : CommandOp) : string :=
  match op with
  | OpSave m => m_id m
  | OpUpdate m => m_id m
  | OpDelete i => i
  end.

Definition run_op (store : CommandStore) (op : CommandOp) : CommandStore :=
  match op with
  | OpSave m => fst (ExampleCommandRepository.save_async m store)
  | OpUpdate m =>
      match ExampleCommandRepository.update_async m store with
      | Ok s => s | Raise _ => store end
  | OpDelete i =>
      match ExampleCommandRepository.delete_async i store with
      | Ok s => s | Raise _ => store end
  end.

Definition run_ops (store : CommandStore) (ops : list CommandOp) : CommandStore :=
  fold_left run_op ops store.

(* ------------------------------------------------------------------ *)
(** ** Query repository:
       infrastructure/repositories/impl/example_query_repository.py *)

(** A Python [dict] keeps its keys in insertion order; assigning to an
    existing key keeps its position. *)
Fixpoint dict_set {V} (d : list (string * V)) (k : string) (v : V) : list (string * V) :=
  match d with
  | [] => [(k, v)]
  | (k', v') :: rest =>
      if String.eqb k k' then (k, v) :: rest else (k', v') :: dict_set rest k v
  end.

Fixpoint dict_get {V} (d : list (string * V)) (k : string) : option V :=
  match d with
  | [] => None
  | (k', v') :: rest => if String.eqb k k' then Some v' else dict_get rest k
  end.

(** [list(d.values())]. *)
Definition dict_values {V} (d : list (string * V)) : list V := map snd d.

(** Python slice bounds: a negative index counts from the end, and both
    bounds are clamped to [0, len]. *)
Definition py_slice_index (i n : Z) : Z :=
  if Z.ltb i 0 then Z.max 0 (i + n) else Z.min i n.

(** [l[a:b]] with step 1. *)
Definition py_slice {A} (l : list A) (a b : Z) : list A :=
  let n := Z.of_nat (length l) in
  let lo := py_slice_index a n in
  let hi := py_slice_index b n in
  firstn (Z.to_nat (hi - lo)) (skipn (Z.to_nat lo) l).

Abbreviation QueryStore := (list (string * ExampleReadEntity)).

Module ExampleQueryRepository.

(** [find_by_id_async]: [store.get(p_id)]. *)
Definition find_by_id_async (p_id : string) (store : QueryStore)
    : option ExampleReadEntity :=
  dict_get store p_id.

(** [list_by_filter_async(p_skip, p_take)]:
    [list(store.values())[p_skip:p_skip + p_take]]. *)
Definition list_by_filter_async (p_skip p_take : Z) (store : QueryStore)
    : list ExampleReadEntity :=
  let all_entities := dict_values store in
  py_slice all_entities p_skip (p_skip + p_take).

End ExampleQueryRepository.

(* ------------------------------------------------------------------ *)
(** ** Domain events: domain/events *)

(** The three events; [BaseDomainEvent.__init__] gives each an
    [event_id] (a fresh uuid), a [timestamp] and a [correlation_id]. *)
Inductive DomainEvent :=
  | ExampleCreatedEvent (event_id : string) (timestamp : Z) (correlation_id : string)
      (example_id name owner_id : string)
  | ExampleUpdatedEvent (event_id : string) (timestamp : Z) (correlation_id : string)
      (example_id name : string)
  | ExampleDeletedEvent (event_id : string) (timestamp : Z) (correlation_id : string)
      (example_id : string).

(* ------------------------------------------------------------------ *)
(** ** The world an [async] method runs in *)

(** What is observable outside a request: the calls on the unit of work
    and the handler invocations of the event bus.  [ADeliver h topic ev]
    is the call of subscriber [h] with [ev] for [topic]. *)
Inductive Action :=
  | ABegin
  | ACommit
  | ARollback
  | ADeliver (handler : nat) (topic : string) (ev : DomainEvent).

Record World := mkWorld {
  w_command_store : CommandStore;       (* ExampleCommandRepository._in_memory_store *)
  w_query_store : QueryStore;           (* ExampleQueryRepository._in_memory_store *)
  w_subscribers : gmap string (list nat); (* InMemoryEventBus._subscribers *)
  w_log : list Action;
  w_clock : Z;                          (* datetime.utcnow() *)
  w_uuid : nat                          (* uuid.uuid4() *)
}.

Definition set_command_store (s : CommandStore) (w : World) : World :=
  mkWorld s (w_query_store w) (w_subscribers w) (w_log w) (w_clock w) (w_uuid w).
Definition set_subscribers (sb : gmap string (list nat)) (w : World) : World :=
  mkWorld (w_command_store w) (w_query_store w) sb (w_log w) (w_clock w) (w_uuid w).
Definition append_log (l : list Action) (w : World) : World :=
  mkWorld (w_command_store w) (w_query_store w) (w_subscribers w) (w_log w ++ l)%list
    (w_clock w) (w_uuid w).
Definition tick (w : World) : World :=
  mkWorld (w_command_store w) (w_query_store w) (w_subscribers w) (w_log w)
    (w_clock w + 1) (w_uuid w).
Definition next_uuid (w : World) : World :=
  mkWorld (w_command_store w) (w_query_store w) (w_subscribers w) (w_log w)
    (w_clock w) (S (w_uuid w)).

(** An [async] computation: a state and exception monad over [World]. *)
Definition M (A : Type) : Type := World -> World * Result A.

Definition ret {A} (a : A) : M A := fun w => (w, Ok a).

Definition bind {A B} (m : M A) (k : A -> M B) : M B :=
  fun w => match m w with
           | (w', Ok a) => k a w'
           | (w', Raise e) => (w', Raise e)
           end.

Definition raise {A} (e : exn) : M A := fun w => (w, Raise e).

(** [try: m except Exception as e: h(e)]. *)
Definition try_except {A} (m : M A) (h : exn -> M A) : M A :=
  fun w => match m w with
           | (w', Ok a) => (w', Ok a)
           | (w', Raise e) => h e w'
           end.

Definition lift {A} (r : Result A) : M A := fun w => (w, r).

Notation "x <- m ;; k" := (bind m (fun x => k))
  (at level 100, m at next level, right associativity).
Notation "m ;;; k" := (bind m (fun _ => k))
  (at level 100, right associativity).

Definition uuid4 : M string :=
  fun w => (next_uuid w, Ok ("uuid-" +:+ show_nat (w_uuid w))).

Definition utcnow : M Z := fun w => (tick w, Ok (w_clock w)).

Definition record (a : Action) : M unit := fun w => (append_log [a] w, Ok tt).

(* ------------------------------------------------------------------ *)
(** ** Unit of work *)

(** Modelled from the spec: the concrete [UnitOfWork] that main.py imports
    from infrastructure/repositories/infra/unit_of_work.py is not among the
    sources; only its interface [IUnitOfWork] is.  Each of
    [begin_transaction_async], [commit_async] and [rollback_async] is
    recorded in the log when it is invoked and returns normally (§4.5: the
    coordinator begins, commits or rolls back the one transaction of the
    request). *)
Definition begin_transaction_async : M unit := record ABegin.
Definition commit_async : M unit := record ACommit.
Definition rollback_async : M unit := record ARollback.

(* ------------------------------------------------------------------ *)
(** ** Event bus: infrastructure/queues/in_memory_event_bus.py *)

Module InMemoryEventBus.

(** [publish_async]: every handler subscribed to the topic is called
    with the event; [asyncio.gather(..., return_exceptions=True)]
    swallows their exceptions, so the call itself returns normally. *)
Definition publish_async (p_event : DomainEvent) (p_topic : string) : M unit :=
  fun w =>
    let handlers := default [] (w_subscribers w !! p_topic) in
    (append_log (map (fun h => ADeliver h p_topic p_event) handlers) w, Ok tt).

(** [subscribe_async]: append the handler to the topic's list. *)
Definition subscribe_async (p_topic : string) (p_handler : nat) : M unit :=
  fun w =>
    let hs := default [] (w_subscribers w !! p_topic) in
    (set_subscribers (<[p_topic := (hs ++ [p_handler])%list]> (w_subscribers w)) w, Ok tt).

End InMemoryEventBus.

(** The command repository's methods as [async] calls on the world. *)
Module CommandRepo.

Definition save_async (p_model : ExampleModel) : M string :=
  fun w => let (s, i) := ExampleCommandRepository.save_async p_model (w_command_store w) in
           (set_command_store s w, Ok i).

Definition update_async (p_model : ExampleModel) : M unit :=
  fun w => match ExampleCommandRepository.update_async p_model (w_command_store w) with
           | Ok s => (set_command_store s w, Ok tt)
           | Raise e => (w, Raise e)
           end.

Definition delete_async (p_id : string) : M unit :=
  fun w => match ExampleCommandRepository.delete_async p_id (w_command_store w) with
           | Ok s => (set_command_store s w, Ok tt)
           | Raise e => (w, Raise e)
           end.

Definition find_by_id_for_command_async (p_id : string) : M ExampleModel :=
  fun w => (w, ExampleCommandRepository.find_by_id_for_command_async p_id (w_command_store w)).

End CommandRepo.

(* ------------------------------------------------------------------ *)
(** ** Service: application/services/impl/example_service.py *)

Module ExampleService.

(** [ExampleModel()] inside [ExampleModel.create]: a fresh uuid and the
    current time (both timestamps read the same instant here). *)
Definition to_model_from_request (p_dto : CreateExampleRequest) : M ExampleModel :=
  uuid <- uuid4 ;;
  now <- utcnow ;;
  lift (ExampleMapper.to_model_from_request uuid now p_dto).

(** [BaseDomainEvent.__init__]: fresh event id and timestamp. *)
Definition event_header : M (string * Z) :=
  eid <- uuid4 ;; ts <- utcnow ;; ret (eid, ts).

Definition create_example_async (p_request : CreateExampleRequest)
    (p_user_id p_correlation_id : string) : M string :=
  model <- to_model_from_request p_request ;;
  let model := set_owner model p_user_id in
  example_id <- CommandRepo.save_async model ;;
  hdr <- event_header ;;
  let event := ExampleCreatedEvent (fst hdr) (snd hdr) p_correlation_id
                 example_id (m_name model) p_user_id in
  InMemoryEventBus.publish_async event "example.created" ;;;
  ret example_id.

(** The [validate_ownership] step shared by the command use cases:
    a [PermissionError] becomes [UNAUTHORIZED]. *)
Definition check_ownership (p_id : string) (model : ExampleModel) (p_user_id : string)
    : M unit :=
  match validate_ownership model p_user_id with
  | None => ret tt
  | Some _ => raise (ServiceException UNAUTHORIZED [("id", p_id)])
  end.

(** [update_example_async].  [find_by_id_for_command_async] raises on a
    missing id, so the [if model is None] branch of the source is never
    taken and is not part of the model. *)
Definition update_example_async (p_id : string) (p_request : UpdateExampleRequest)
    (p_user_id : string) : M unit :=
  model <- CommandRepo.find_by_id_for_command_async p_id ;;
  check_ownership p_id model p_user_id ;;;
  now <- utcnow ;;
  let (model', err) := ExampleMapper.update_model_from_request model p_request now in
  match err with
  | Some e => raise e
  | None =>
      CommandRepo.update_async model' ;;;
      hdr <- event_header ;;
      let event := ExampleUpdatedEvent (fst hdr) (snd hdr) "" p_id (m_name model') in
      InMemoryEventBus.publish_async event "example.updated"
  end.

(** [delete_example_async]. *)
Definition delete_example_async (p_id p_user_id : string) : M unit :=
  model <- CommandRepo.find_by_id_for_command_async p_id ;;
  check_ownership p_id model p_user_id ;;;
  CommandRepo.delete_async p_id ;;;
  hdr <- event_header ;;
  InMemoryEventBus.publish_async (ExampleDeletedEvent (fst hdr) (snd hdr) "" p_id)
    "example.deleted".

(** [activate_example_async] and [deactivate_example_async]: load, check
    ownership, [model.activate()] / [model.deactivate()] (which read the
    clock), then [update_async].  Neither publishes an event.  As in
    [update_example_async], the [if model is None] branch is dead. *)
Definition activate_example_async (p_id p_user_id : string) : M unit :=
  model <- CommandRepo.find_by_id_for_command_async p_id ;;
  check_ownership p_id model p_user_id ;;;
  now <- utcnow ;;
  CommandRepo.update_async (activate model now).

Definition deactivate_example_async (p_id p_user_id : string) : M unit :=
  model <- CommandRepo.find_by_id_for_command_async p_id ;;
  check_ownership p_id model p_user_id ;;;
  now <- utcnow ;;
  CommandRepo.update_async (deactivate model now).

(** [get_example_async]: a read of the query store; [None] raises
    [NOT_FOUND], an entity is mapped directly to the response. *)
Definition get_example_async (p_id : string) : M ExampleResponse :=
  fun w =>
    match ExampleQueryRepository.find_by_id_async p_id (w_query_store w) with
    | None => (w, Raise (ServiceException NOT_FOUND [("id", p_id)]))
    | Some entity => (w, Ok (ExampleMapper.to_response_from_read_entity entity))
    end.


End ExampleService.

(* ------------------------------------------------------------------ *)
(** ** HTTP requests and responses *)

(** The parts of a request the middleware and the controller read. *)
Record Request := mkRequest {
  req_method : string;
  req_path : string;
  req_user_id : string;            (* request.state.user_id *)
  req_path_id : option string;     (* request.path_params.get("id") *)
  req_body_name : string;
  req_body_description : string
}.

(** The [ErrorResponseDto] dataclass; [details] defaults to [None]. *)
Record ErrorResponseDto := mkErrorResponseDto {
  er_code : string;
  er_message : string;
  er_timestamp : Z;
  er_path : string;
  er_request_id : string;
  er_details : option (list (string * string))
}.

(** A route's response, with its status code. *)
Inductive Response :=
  | HttpResponse (status : Z).

Definition status_code (r : Response) : Z :=
  match r with HttpResponse s => s end.

(** What [ErrorHandlingMiddleware.__call__] returns: the next stage's
    response unchanged, or the bare [ErrorResponseDto] it builds (the
    [JSONResponse] carrying a status is commented out in the source). *)
Inductive Returned :=
  | Passed (r : Response)
  | ErrorDto (dto : ErrorResponseDto).

Definition Handler := Request -> M Response.

(** [BaseController.get_user_id] and [get_correlation_id] (placeholders). *)
Definition controller_user_id : string := "user-123".
Definition controller_correlation_id : string := "correlation-123".

(** [UpdateExampleRequest.validate]. *)
Definition update_request_validate (r : UpdateExampleRequest) : option string :=
  if py_blank (ur_name r) then Some "Name is required"
  else if Z.ltb 100 (py_len (ur_name r)) then Some "Name cannot exceed 100 characters"
  else if Z.ltb 500 (py_len (ur_description r)) then Some "Description cannot exceed 500 characters"
  else None.

(** [ExampleController.update_example] behind the PUT route (status 204);
    the id is the path parameter. *)
Definition update_example_route : Handler :=
  fun req =>
    let dto := mkUpdateExampleRequest (req_body_name req) (req_body_description req) in
    let p_id := default "" (req_path_id req) in
    match update_request_validate dto with
    | Some msg => raise (ValueError msg)
    | None =>
        ExampleService.update_example_async p_id dto controller_user_id ;;;
        ret (HttpResponse 204)
    end.

(** The routes of main.py behind [ExampleController]: GET [/{p_id}]
    (status 200 with the response body, which is not modelled), DELETE
    [/{p_id}] and POST [/{p_id}/activate], [/{p_id}/deactivate] (status
    204); the user is the controller's placeholder [get_user_id()]. *)
Definition get_example_route : Handler :=
  fun req =>
    _ <- ExampleService.get_example_async (default "" (req_path_id req)) ;;
    ret (HttpResponse 200).

Definition delete_example_route : Handler :=
  fun req =>
    ExampleService.delete_example_async (default "" (req_path_id req)) controller_user_id ;;;
    ret (HttpResponse 204).

Definition activate_example_route : Handler :=
  fun req =>
    ExampleService.activate_example_async (default "" (req_path_id req)) controller_user_id ;;;
    ret (HttpResponse 204).

Definition deactivate_example_route : Handler :=
  fun req =>
    ExampleService.deactivate_example_async (default "" (req_path_id req)) controller_user_id ;;;
    ret (HttpResponse 204).

(* ------------------------------------------------------------------ *)
(** ** Middleware: api/middleware *)

(** [p_request.method in ["POST", "PUT", "PATCH", "DELETE"]]. *)
Definition is_mutating (req : Request) : bool :=
  bool_decide (req_method req ∈ ["POST"; "PUT"; "PATCH"; "DELETE"]).

(** [OwnershipMiddleware.__call__]: GET requests go straight to the next
    stage; for the others the extraction and the verification are
    commented out in the source, and the next stage is called as well. *)
Definition ownership_call (p_request : Request) (p_call_next : Handler) : M Response :=
  if String.eqb (req_method p_request) "GET" then p_call_next p_request
  else p_call_next p_request.

(** [UnitOfWorkMiddleware.__call__]. *)
Definition unit_of_work_call (p_request : Request) (p_call_next : Handler) : M Response :=
  if negb (is_mutating p_request) then p_call_next p_request
  else
    try_except
      (begin_transaction_async ;;;
       response <- p_call_next p_request ;;
       (if Z.ltb (status_code response) 400 then commit_async else rollback_async) ;;;
       ret response)
      (fun e => rollback_async ;;; raise e).

(** [str.replace(old, new)] (all occurrences, left to right). *)
Fixpoint py_replace_fuel (fuel : nat) (old new s : string) : string :=
  match fuel with
  | O => s
  | S fuel' =>
      match s with
      | EmptyString => EmptyString
      | String c rest =>
          if py_prefix old s && negb (String.eqb old "")
          then new +:+ py_replace_fuel fuel' old new
                         (String.substring (String.length old) (String.length s) s)
          else String c (py_replace_fuel fuel' old new rest)
      end
  end.

Definition py_replace (old new s : string) : string :=
  py_replace_fuel (S (String.length s)) old new s.

(** [ExampleServiceException._MESSAGE_TEMPLATES]. *)
Definition message_template (c : ExampleErrorCode) : string :=
  match c with
  | NOT_FOUND => "Example '{id}' not found"
  | VALIDATION_FAILED => "Validation failed: {reason}"
  | CONFLICT => "Example '{name}' already exists"
  | UNAUTHORIZED => "You are not authorized to access example '{id}'"
  | ALREADY_EXISTS => "Example with name '{name}' already exists"
  end.

(** [TypedServiceException._format_message]: every [{key}] of the details
    replaced by its value, in the order of the details. *)
Definition format_message (c : ExampleErrorCode) (details : list (string * string)) : string :=
  fold_left (fun msg kv => py_replace ("{" +:+ fst kv +:+ "}") (snd kv) msg)
    details (message_template c).

(** [ErrorHandlingMiddleware._map_error_code_to_status]. *)
Definition map_error_code_to_status (p_code : string) : Z :=
  let code_str := py_upper p_code in
  if py_contains "NOT_FOUND" code_str then 404
  else if py_contains "CONFLICT" code_str || py_contains "ALREADY_EXISTS" code_str then 409
  else if py_contains "VALIDATION" code_str then 400
  else if py_contains "UNAUTHORIZED" code_str then 401
  else if py_contains "FORBIDDEN" code_str then 403
  else 500.

(** The DTO of the [except Exception] branch of
    [ErrorHandlingMiddleware.__call__]. *)
Definition internal_error_dto (now : Z) : ErrorResponseDto :=
  mkErrorResponseDto "INTERNAL_ERROR" "An unexpected error occurred" now "" "" None.

(** [ErrorHandlingMiddleware.__call__]: the next stage's response is
    returned as it is; a [ServiceException] becomes an error DTO with its
    code, its formatted message and its details (the status computed by
    [_map_error_code_to_status] is not used); any other exception becomes
    the generic [INTERNAL_ERROR] DTO.  Both DTOs read [datetime.utcnow()]. *)
Definition error_handling_call (p_request : Request) (p_call_next : Handler) : M Returned :=
  try_except (r <- p_call_next p_request ;; ret (Passed r))
    (fun e =>
       match e with
       | ServiceException c d =>
           now <- utcnow ;;
           ret (ErrorDto (mkErrorResponseDto (error_code_value c) (format_message c d)
                            now "" "" (Some d)))
       | _ =>
           now <- utcnow ;;
           ret (ErrorDto (internal_error_dto now))
       end).

(** The pipeline of main.py, outermost first: error handling, ownership,
    unit of work, then the route (correlation id, CORS and the absent
    authentication stage do not touch the modelled state). *)
Definition pipeline (route : Handler) : Request -> M Returned :=
  fun req =>
    error_handling_call req (fun r1 =>
      ownership_call r1 (fun r2 =>
        unit_of_work_call r2 route)).

(* ------------------------------------------------------------------ *)
(** ** The rest-ddd middleware: infrastructures/rest-ddd/python/src/api/middleware

    The sibling skeleton's unit-of-work and ownership middleware take any
    request and any next stage.  Its [IUnitOfWork] is an interface whose
    calls are recorded in the log, as above. *)

Module RestDdd.

(** The exceptions that cross these middleware: [ForbiddenException],
    [NotImplementedError], and whatever the next stage raises. *)
Inductive RExn :=
  | ForbiddenException (msg : string)
  | NotImplementedError (msg : string)
  | HandlerError (e : exn).

Inductive RResult (A : Type) :=
  | ROk (a : A)
  | RRaise (e : RExn).
Arguments ROk {A} a.
Arguments RRaise {A} e.

Definition RM (A : Type) : Type := World -> World * RResult A.

Definition rret {A} (a : A) : RM A := fun w => (w, ROk a).

Definition rbind {A B} (m : RM A) (k : A -> RM B) : RM B :=
  fun w => match m w with
           | (w', ROk a) => k a w'
           | (w', RRaise e) => (w', RRaise e)
           end.

Definition rraise {A} (e : RExn) : RM A := fun w => (w, RRaise e).

Definition rlift {A} (r : RResult A) : RM A := fun w => (w, r).

Definition rtry_except {A} (m : RM A) (h : RExn -> RM A) : RM A :=
  fun w => match m w with
           | (w', ROk a) => (w', ROk a)
           | (w', RRaise e) => h e w'
           end.

Definition rrecord (a : Action) : RM unit := fun w => (append_log [a] w, ROk tt).

(** A response of the next stage, as far as the middleware reads it:
    [Some s] when it has a [status_code] attribute [s], [None] when not. *)
Definition RResponse : Type := option Z.

Definition RHandler : Type := Request -> RM RResponse.

(** [UnitOfWorkMiddleware.__call__]: there is no method test, and
    [getattr(response, 'status_code', 200)] counts a response without a
    status as a success. *)
Definition unit_of_work_call (p_request : Request) (p_call_next : RHandler) : RM RResponse :=
  rtry_except
    (rbind (rrecord ABegin) (fun _ =>
     rbind (p_call_next p_request) (fun response =>
     let status_code := default 200%Z response in
     rbind (if Z.ltb status_code 400 then rrecord ACommit else rrecord ARollback) (fun _ =>
     rret response))))
    (fun e => rbind (rrecord ARollback) (fun _ => rraise e)).

(** [IOwnershipVerifier]: the two checks, which may read the world. *)
Record IOwnershipVerifier := mkOwnershipVerifier {
  verify_ownership_async : string -> string -> string -> World -> bool;
  is_public_resource_async : string -> string -> World -> bool
}.

(** [_extract_user_id] and [_extract_resource_id], static methods that a
    subclass overrides. *)
Record Extractors := mkExtractors {
  extract_user_id : Request -> RResult string;
  extract_resource_id : Request -> RResult (option string)
}.

(** The base class's extractors: both raise [NotImplementedError]. *)
Definition base_extractors : Extractors :=
  mkExtractors
    (fun _ => RRaise (NotImplementedError "Must implement user ID extraction"))
    (fun _ => RRaise (NotImplementedError "Must implement resource ID extraction")).

(** [OwnershipMiddleware(p_ownership_verifier, p_resource_type).__call__]
    with the extractors [ex].  [not resource_id] holds for [None] and the
    empty string. *)
Definition ownership_call (ex : Extractors) (v : IOwnershipVerifier)
    (p_resource_type : string) (p_request : Request) (p_call_next : RHandler)
    : RM RResponse :=
  rbind (rlift (extract_user_id ex p_request)) (fun user_id =>
  rbind (rlift (extract_resource_id ex p_request)) (fun resource_id =>
  match resource_id with
  | None => p_call_next p_request
  | Some rid =>
      if String.eqb rid "" then p_call_next p_request
      else fun w =>
        if is_public_resource_async v rid p_resource_type w then p_call_next p_request w
        else if verify_ownership_async v user_id rid p_resource_type w
        then p_call_next p_request w
        else (w, RRaise (ForbiddenException
                           ("User " +:+ user_id +:+ " does not have access to "
                            +:+ p_resource_type +:+ " " +:+ rid)))
  end)).

End RestDdd.

(* ------------------------------------------------------------------ *)
(** ** Scenarios and readings of the claims used below *)

Open Scope Z_scope.

Definition widget_model : ExampleModel :=
  mkExampleModel "uuid-0" 100 100 "Widget" "" "user-123" true.

(** The reading of the claim: every update persisted through the command
    repository stores a strictly larger version. *)
Definition version_increments_on_update : Prop :=
  forall (store store' : CommandStore) (m : ExampleModel) (eb ea : ExampleWriteEntity),
    ExampleCommandRepository.update_async m store = Ok store' ->
    store !! m_id m = Some eb -> store' !! m_id m = Some ea ->
    we_version eb < we_version ea.

Definition e1_entity : ExampleWriteEntity :=
  mkExampleWriteEntity "e1" 5 6 0 "Widget" "" "user-123" true.

(** A world whose command store holds [e1], owned by the placeholder user
    of the controller, with subscriber [7] on [example.updated]. *)
Definition demo_world : World :=
  mkWorld (<["e1" := e1_entity]> ∅) [] (<["example.updated" := [7%nat]]> ∅) [] 100 0.

Definition put_e1 : Request :=
  mkRequest "PUT" "/api/v1/examples/e1" "user-123" (Some "e1") "Gadget" "".
Definition put_missing : Request :=
  mkRequest "PUT" "/api/v1/examples/e9" "user-123" (Some "e9") "Gadget" "".
Definition put_by_other_user : Request :=
  mkRequest "PUT" "/api/v1/examples/e1" "mallory" (Some "e1") "Gadget" "".

(** The entry the unit-of-work middleware appends for a handler outcome. *)
Definition outcome_action (r : Result Response) : Action :=
  match r with
  | Ok resp => if Z.ltb (status_code resp) 400 then ACommit else ARollback
  | Raise _ => ARollback
  end.

(** The reading of C1 on a request's log: every delivery comes after a
    commit, and a log with a rollback has no delivery. *)
Definition delivered_only_after_commit (log : list Action) : Prop :=
  forall (i : nat) h t ev, log !! i = Some (ADeliver h t ev) ->
    exists k, (k < i)%nat /\ log !! k = Some ACommit.

Definition discarded_on_rollback (log : list Action) : Prop :=
  ARollback ∈ log -> forall h t ev, ADeliver h t ev ∉ log.

Definition events_published_after_commit (route : Handler) : Prop :=
  forall req w, w_log w = [] -> is_mutating req = true ->
    let log := w_log (fst (pipeline route req w)) in
    delivered_only_after_commit log /\ discarded_on_rollback log.

(** An ownership verifier over the command store, and extractors that
    read [request.state.user_id] and [request.path_params.get("id")]: one
    way a subclass may fill in the rest-ddd ownership middleware. *)
Definition store_ownership_verifier : RestDdd.IOwnershipVerifier :=
  RestDdd.mkOwnershipVerifier
    (fun u rid _ w => match w_command_store w !! rid with
                      | Some e => String.eqb (we_owner_id e) u
                      | None => false
                      end)
    (fun _ _ _ => false).

Definition request_extractors : RestDdd.Extractors :=
  RestDdd.mkExtractors (fun req => RestDdd.ROk (req_user_id req))
                       (fun req => RestDdd.ROk (req_path_id req)).

(** The entry the rest-ddd unit-of-work middleware appends for an
    outcome of the next stage. *)
Definition rest_outcome_action (r : RestDdd.RResult RestDdd.RResponse) : Action :=
  match r with
  | RestDdd.ROk resp => if Z.ltb (default 200 resp) 400 then ACommit else ARollback
  | RestDdd.RRaise _ => ARollback
  end.

(** A computation that leaves [ExampleQueryRepository._in_memory_store]
    as it found it. *)
Definition preserves_query_store {A} (m : M A) : Prop :=
  forall w, w_query_store (fst (m w)) = w_query_store w.

(** Two worlds with the same stores, subscriptions and log (the clock and
    the uuid counter may differ). *)
Definition same_stores_and_log (w w' : World) : Prop :=
  w_command_store w' = w_command_store w /\ w_query_store w' = w_query_store w /\
  w_subscribers w' = w_subscribers w /\ w_log w' = w_log w.

(* ================================================================== *)
(** * Properties *)

(* ------------------------------------------------------------------ *)
(** ** Mapper round trip *)

(** C8: mapping a write projection to a BMO and back yields a write
    projection with the same id, name, description, owner_id, is_active,
    created_at and updated_at; only the version counter, which the BMO
    does not carry, is not restored. *)
Theorem write_entity_round_trip (e : ExampleWriteEntity) :
  let e' := ExampleMapper.to_write_entity (ExampleMapper.to_model_from_write_entity e) in
  we_id e' = we_id e /\ we_name e' = we_name e /\
  we_description e' = we_description e /\ we_owner_id e' = we_owner_id e /\
  we_is_active e' = we_is_active e /\ we_created_at e' = we_created_at e /\
  we_updated_at e' = we_updated_at e.
Proof. destruct e; simpl; repeat split. Qed.

(* ------------------------------------------------------------------ *)
(** ** Pagination *)

Lemma py_slice_nonneg {A} (l : list A) (s t : Z) :
  0 <= s -> 0 <= t ->
  py_slice l s (s + t) = firstn (Z.to_nat t) (skipn (Z.to_nat s) l).
Proof.
  intros Hs Ht. unfold py_slice, py_slice_index.
  set (n := Z.of_nat (length l)).
  destruct (Z.ltb_spec s 0) as [Hs'|_]; [lia|].
  destruct (Z.ltb_spec (s + t) 0) as [Hst|_]; [lia|].
  destruct (Z.le_gt_cases s n) as [Hsn|Hsn].
  - rewrite (Z.min_l s n) by lia.
    destruct (Z.le_gt_cases (s + t) n) as [Hstn|Hstn].
    + rewrite Z.min_l by lia. f_equal. lia.
    + rewrite Z.min_r by lia.
      rewrite (firstn_all2 (n := Z.to_nat t)).
      * apply firstn_all2. rewrite length_skipn. lia.
      * rewrite length_skipn. lia.
  - rewrite !Z.min_r by lia.
    rewrite (skipn_all2 (n := Z.to_nat s)) by lia.
    rewrite Z.sub_diag. unfold n. rewrite Nat2Z.id.
    rewrite skipn_all2 by lia. rewrite !firstn_nil. reflexivity.
Qed.

(** C9: for non-negative [skip] and [take], [list_by_filter_async] returns
    the contiguous slice of the store's values (in insertion order) that
    starts at offset [skip] and has at most [take] items; it is empty
    when [skip] is at least the number of stored items. *)
Theorem list_by_filter_pagination (store : QueryStore) (p_skip p_take : Z) :
  0 <= p_skip -> 0 <= p_take ->
  let all_entities := dict_values store in
  let result := ExampleQueryRepository.list_by_filter_async p_skip p_take store in
  result = firstn (Z.to_nat p_take) (skipn (Z.to_nat p_skip) all_entities) /\
  Z.of_nat (length result) <= p_take /\
  (Z.of_nat (length all_entities) <= p_skip -> result = []).
Proof.
  intros Hs Ht all_entities result.
  assert (Hr : result = firstn (Z.to_nat p_take) (skipn (Z.to_nat p_skip) all_entities))
    by (apply py_slice_nonneg; assumption).
  split; [exact Hr|]. split.
  - rewrite Hr, length_firstn. lia.
  - intros Hle. rewrite Hr, skipn_all2 by lia. apply firstn_nil.
Qed.

Lemma list_by_filter_pagination_witness :
  (0 <= 1 /\ 0 <= 2) /\
  let store : QueryStore :=
    [("a", mkExampleReadEntity "a" 0 0 "A" "" "u" "" true "A" "Active");
     ("b", mkExampleReadEntity "b" 0 0 "B" "" "u" "" true "B" "Active");
     ("c", mkExampleReadEntity "c" 0 0 "C" "" "u" "" false "C" "Inactive")] in
  let result := ExampleQueryRepository.list_by_filter_async 1 2 store in
  result = firstn (Z.to_nat 2) (skipn (Z.to_nat 1) (dict_values store)) /\
  Z.of_nat (length result) <= 2 /\
  (Z.of_nat (length (dict_values store)) <= 1 -> result = []).
Proof.
  split; [lia|].
  apply list_by_filter_pagination; lia.
Defined.

(* ------------------------------------------------------------------ *)
(** ** Command repository round trip *)

Lemma hydrate_to_write_entity (m : ExampleModel) :
  ExampleMapper.to_model_from_write_entity (ExampleMapper.to_write_entity m) = m.
Proof. destruct m; reflexivity. Qed.

Lemma run_op_lookup_ne (store : CommandStore) (op : CommandOp) (k : string) :
  op_target op <> k -> run_op store op !! k = store !! k.
Proof.
  intros Hne. destruct op as [m|m|i]; simpl in *.
  - apply lookup_insert_ne. exact Hne.
  - unfold ExampleCommandRepository.update_async. simpl.
    destruct (store !! m_id m); [apply lookup_insert_ne; exact Hne|reflexivity].
  - unfold ExampleCommandRepository.delete_async.
    destruct (store !! i); [apply lookup_delete_ne; exact Hne|reflexivity].
Qed.

Lemma run_ops_lookup_ne (store : CommandStore) (ops : list CommandOp) (k : string) :
  Forall (fun op => op_target op <> k) ops -> run_ops store ops !! k = store !! k.
Proof.
  revert store. induction ops as [|op ops IH]; intros store Hall; [reflexivity|].
  inversion Hall as [|? ? Hop Hrest]; subst.
  unfold run_ops. simpl. fold (run_ops (run_op store op) ops).
  rewrite IH by exact Hrest. apply run_op_lookup_ne. exact Hop.
Qed.

(** C10: after [save_async m], and any later commands none of which saves,
    updates or deletes the identity [m.id], [exists_async m.id] is true and
    [find_by_id_for_command_async m.id] returns a model equal to [m] in
    every field (id, name, description, owner_id, is_active, created_at,
    updated_at). *)
Theorem save_then_find (store : CommandStore) (m : ExampleModel) (ops : list CommandOp) :
  Forall (fun op => op_target op <> m_id m) ops ->
  let s := run_ops (fst (ExampleCommandRepository.save_async m store)) ops in
  ExampleCommandRepository.exists_async (m_id m) s = true /\
  ExampleCommandRepository.find_by_id_for_command_async (m_id m) s = Ok m.
Proof.
  intros Hall s.
  assert (Hs : s !! m_id m = Some (ExampleMapper.to_write_entity m)).
  { unfold s. rewrite run_ops_lookup_ne by exact Hall.
    simpl. apply lookup_insert_eq. }
  split.
  - unfold ExampleCommandRepository.exists_async. rewrite Hs.
    apply bool_decide_eq_true. eexists; reflexivity.
  - unfold ExampleCommandRepository.find_by_id_for_command_async. rewrite Hs.
    rewrite hydrate_to_write_entity. reflexivity.
Qed.

Lemma save_then_find_witness :
  Forall (fun op => op_target op <> m_id widget_model) [OpDelete "other"] /\
  let s := run_ops (fst (ExampleCommandRepository.save_async widget_model ∅)) [OpDelete "other"] in
  ExampleCommandRepository.exists_async (m_id widget_model) s = true /\
  ExampleCommandRepository.find_by_id_for_command_async (m_id widget_model) s = Ok widget_model.
Proof.
  split.
  - constructor; [simpl; discriminate|constructor].
  - apply save_then_find. constructor; [simpl; discriminate|constructor].
Defined.

(* ------------------------------------------------------------------ *)
(** ** Request to BMO *)

Lemma uuid_not_blank (n : nat) : py_blank ("uuid-" +:+ show_nat n) = false.
Proof. reflexivity. Qed.

Lemma create_request_validate_ok (dto : CreateExampleRequest) :
  create_request_validate dto = None ->
  py_blank (cr_name dto) = false /\ Z.ltb 100 (py_len (cr_name dto)) = false.
Proof.
  unfold create_request_validate.
  destruct (py_blank (cr_name dto)); [discriminate|].
  destruct (Z.ltb 100 (py_len (cr_name dto))); [discriminate|].
  intros _. split; reflexivity.
Qed.

(** C3: for every well-formed [CreateExampleRequest] (one that passes its
    edge validation), [to_model_from_request] raises
    [ValueError("Example must have an owner")]: it passes the owner [""]
    to [ExampleModel.create], whose validation rejects a blank owner.  The
    create use case therefore raises too, before it saves anything. *)
Theorem to_model_from_request_raises (dto : CreateExampleRequest) (w : World) :
  create_request_validate dto = None ->
  snd (ExampleService.to_model_from_request dto w)
    = Raise (ValueError "Example must have an owner") /\
  forall p_user_id p_correlation_id,
    snd (ExampleService.create_example_async dto p_user_id p_correlation_id w)
      = Raise (ValueError "Example must have an owner").
Proof.
  intros Hdto. destruct (create_request_validate_ok dto Hdto) as [Hb Hl].
  assert (H : snd (ExampleService.to_model_from_request dto w)
              = Raise (ValueError "Example must have an owner")).
  { unfold ExampleService.to_model_from_request, bind, uuid4, utcnow, lift. simpl.
    unfold ExampleMapper.to_model_from_request, create, validate. simpl.
    rewrite ?uuid_not_blank, Hb, Hl. reflexivity. }
  split; [exact H|].
  intros u c. unfold ExampleService.create_example_async.
  unfold bind at 1. destruct (ExampleService.to_model_from_request dto w) as [w1 r] eqn:E.
  simpl in H. subst r. reflexivity.
Qed.

Lemma to_model_from_request_raises_witness :
  create_request_validate (mkCreateExampleRequest "Widget" "") = None /\
  (snd (ExampleService.to_model_from_request (mkCreateExampleRequest "Widget" "")
          (mkWorld ∅ [] ∅ [] 100 0))
     = Raise (ValueError "Example must have an owner") /\
   forall p_user_id p_correlation_id,
     snd (ExampleService.create_example_async (mkCreateExampleRequest "Widget" "")
            p_user_id p_correlation_id (mkWorld ∅ [] ∅ [] 100 0))
       = Raise (ValueError "Example must have an owner")).
Proof.
  split; [reflexivity|].
  apply to_model_from_request_raises. reflexivity.
Defined.

(* ------------------------------------------------------------------ *)
(** ** Version counter *)

(** C5 fails: updating the stored projection [e1] (version 0) stores a
    projection whose version is 0 again. *)
Lemma version_not_incremented :
  ~ version_increments_on_update.
Proof.
  intros H.
  set (m := hydrate "e1" "Gadget" "" "user-123" true 5 7).
  specialize (H (<["e1" := e1_entity]> ∅)
                (<["e1" := ExampleMapper.to_write_entity m]> (<["e1" := e1_entity]> ∅))
                m e1_entity (ExampleMapper.to_write_entity m)).
  assert (Hlt : we_version e1_entity < we_version (ExampleMapper.to_write_entity m)).
  { apply H; vm_compute; reflexivity. }
  vm_compute in Hlt. discriminate.
Qed.

Lemma run_op_versions_zero (store : CommandStore) (op : CommandOp) :
  map_Forall (fun _ e => we_version e = 0) store ->
  map_Forall (fun _ e => we_version e = 0) (run_op store op).
Proof.
  intros Hall. destruct op as [m|m|i]; simpl.
  - apply map_Forall_insert_2; [reflexivity|exact Hall].
  - unfold ExampleCommandRepository.update_async. simpl.
    destruct (store !! m_id m); [|exact Hall].
    apply map_Forall_insert_2; [reflexivity|exact Hall].
  - unfold ExampleCommandRepository.delete_async.
    destruct (store !! i); [|exact Hall].
    apply map_Forall_delete. exact Hall.
Qed.

(** C5 as the code has it: the command repository never changes the
    version counter.  [to_write_entity] builds a fresh
    [ExampleWriteEntity()] whose [version] is 0 and no method touches it,
    so every projection stored by any sequence of saves, updates and
    deletes has version 0, before and after each update alike. *)
Theorem stored_version_always_zero (ops : list CommandOp) (k : string) (e : ExampleWriteEntity) :
  run_ops ∅ ops !! k = Some e -> we_version e = 0.
Proof.
  intros Hk.
  assert (Hall : map_Forall (fun _ e => we_version e = 0) (run_ops ∅ ops)).
  { clear Hk. unfold run_ops. generalize (∅ : CommandStore) (map_Forall_empty (fun (_ : string) (e : ExampleWriteEntity) => we_version e = 0)).
    induction ops as [|op ops IH]; intros s Hs; simpl; [exact Hs|].
    apply IH. apply run_op_versions_zero. exact Hs. }
  exact (Hall k e Hk).
Qed.

Lemma stored_version_always_zero_witness :
  run_ops ∅ [OpSave widget_model; OpUpdate widget_model] !! "uuid-0"
    = Some (ExampleMapper.to_write_entity widget_model) /\
  we_version (ExampleMapper.to_write_entity widget_model) = 0.
Proof.
  split; [vm_compute; reflexivity|].
  apply (stored_version_always_zero [OpSave widget_model; OpUpdate widget_model] "uuid-0").
  vm_compute. reflexivity.
Defined.

(* ------------------------------------------------------------------ *)
(** ** Validation of BMOs *)

(** C6 fails for [hydrate]: it copies the projection's fields without
    calling [validate], so a projection with an empty name gives a model
    that [validate] rejects. *)
Lemma hydrate_skips_validation :
  ~ (forall p_id p_name p_description p_owner_id p_is_active p_created_at p_updated_at,
       validate (hydrate p_id p_name p_description p_owner_id p_is_active
                   p_created_at p_updated_at) = None).
Proof.
  intros H. specialize (H "e1" "" "" "user-123" true 0 0).
  vm_compute in H. discriminate.
Qed.

(** C6 as the code has it: the models that [create] returns and the models
    [update_details] leaves when it returns normally pass [validate];
    [activate] and [deactivate] keep a valid model valid, and so does the
    service's owner assignment when the user id is not blank.  [hydrate]
    does not validate (see [hydrate_skips_validation]). *)
Theorem bmo_valid_after_validating_paths :
  (forall uuid now p_name p_description p_owner_id m,
     create uuid now p_name p_description p_owner_id = Ok m -> validate m = None) /\
  (forall m p_name p_description now m',
     update_details m p_name p_description now = (m', None) -> validate m' = None) /\
  (forall m now, validate m = None ->
     validate (activate m now) = None /\ validate (deactivate m now) = None) /\
  (forall m p_user_id, validate m = None -> py_blank p_user_id = false ->
     validate (set_owner m p_user_id) = None).
Proof.
  split; [|split; [|split]].
  - intros uuid now n d o m. unfold create.
    destruct (validate _) eqn:Hv; intros H; inversion H; subst. exact Hv.
  - intros m n d now m'. unfold update_details.
    destruct (py_blank n); [intros H; inversion H|].
    destruct (validate _) eqn:Hv; intros H; inversion H; subst. exact Hv.
  - intros m now Hm. unfold activate, deactivate, set_active, validate in *. simpl.
    split; exact Hm.
  - intros m u Hm Hu. unfold set_owner, validate in *. simpl.
    destruct (py_blank (m_id m)); [discriminate|].
    destruct (py_blank (m_name m)); [discriminate|].
    destruct (Z.ltb 100 (py_len (m_name m))); [discriminate|].
    rewrite Hu. reflexivity.
Qed.

Lemma bmo_valid_after_validating_paths_witness :
  create "uuid-0" 100 "Widget" "" "user-123" = Ok widget_model /\
  validate widget_model = None.
Proof.
  split; [reflexivity|].
  apply (proj1 bmo_valid_after_validating_paths "uuid-0" 100 "Widget" "" "user-123").
  reflexivity.
Defined.

(* ------------------------------------------------------------------ *)
(** ** Transactional scoping and events *)

(** For a mutating request the unit-of-work middleware records [begin],
    runs the handler, then records exactly one commit or rollback, chosen
    by the handler's outcome, and returns that outcome unchanged. *)
Lemma unit_of_work_call_mutating (req : Request) (next : Handler) (w : World) :
  is_mutating req = true ->
  unit_of_work_call req next w =
    (append_log [outcome_action (snd (next req (append_log [ABegin] w)))]
       (fst (next req (append_log [ABegin] w))),
     snd (next req (append_log [ABegin] w))).
Proof.
  intros Hm. unfold unit_of_work_call. rewrite Hm. simpl.
  unfold try_except, bind, begin_transaction_async, record.
  destruct (next req (append_log [ABegin] w)) as [w1 [r|e]]; simpl.
  - destruct (Z.ltb (status_code r) 400); reflexivity.
  - reflexivity.
Qed.

Lemma publish_async_log (ev : DomainEvent) (topic : string) (w : World) :
  InMemoryEventBus.publish_async ev topic w =
    (append_log (map (fun h => ADeliver h topic ev)
                   (default [] (w_subscribers w !! topic))) w, Ok tt).
Proof. reflexivity. Qed.

(** C1 fails: on a PUT of [e1] by its owner, the update service delivers
    its [example.updated] event to subscriber [7] inside the handler,
    before the middleware commits. *)
Lemma event_delivered_before_commit :
  ~ events_published_after_commit update_example_route.
Proof.
  intros H.
  destruct (H put_e1 demo_world eq_refl eq_refl) as [Hafter _].
  destruct (Hafter 1%nat 7%nat "example.updated"
              (ExampleUpdatedEvent "uuid-0" 101 "" "e1" "Gadget")) as [k [Hk Hc]].
  { vm_compute. reflexivity. }
  assert (k = 0%nat) by lia. subst k.
  vm_compute in Hc. discriminate.
Qed.

(** C1 as the code has it: events are delivered when the service calls
    [publish_async] (every subscriber of the topic is called at once), and
    the unit-of-work middleware only appends its commit or rollback after
    everything the handler did: it neither defers nor withdraws a
    delivery.  So for a mutating request the log of the request is the
    begin, then the handler's deliveries, then the single commit
    (status below 400) or rollback (status 400 or more, or an exception). *)
Theorem unit_of_work_does_not_defer_events (req : Request) (next : Handler) (w : World) :
  is_mutating req = true ->
  (forall ev topic w',
     InMemoryEventBus.publish_async ev topic w' =
       (append_log (map (fun h => ADeliver h topic ev)
                      (default [] (w_subscribers w' !! topic))) w', Ok tt)) /\
  w_log (fst (unit_of_work_call req next w))
    = (w_log (fst (next req (append_log [ABegin] w)))
       ++ [outcome_action (snd (next req (append_log [ABegin] w)))])%list.
Proof.
  intros Hm. split.
  - intros ev topic w'. apply publish_async_log.
  - rewrite (unit_of_work_call_mutating req next w Hm). reflexivity.
Qed.

Lemma unit_of_work_does_not_defer_events_witness :
  is_mutating put_e1 = true /\
  w_log (fst (unit_of_work_call put_e1 update_example_route demo_world))
    = [ABegin; ADeliver 7 "example.updated"
                 (ExampleUpdatedEvent "uuid-0" 101 "" "e1" "Gadget"); ACommit].
Proof.
  split; [reflexivity|].
  destruct (unit_of_work_does_not_defer_events put_e1 update_example_route demo_world
              eq_refl) as [_ Hlog].
  rewrite Hlog. vm_compute. reflexivity.
Defined.

(** C2: for a mutating request whose handler raises, the unit-of-work
    middleware calls rollback right after the handler and then re-raises
    the same exception to the outer layer; no commit is recorded. *)
Theorem unit_of_work_rolls_back_on_exception
    (req : Request) (next : Handler) (w w1 : World) (e : exn) :
  is_mutating req = true ->
  next req (append_log [ABegin] w) = (w1, Raise e) ->
  unit_of_work_call req next w = (append_log [ARollback] w1, Raise e).
Proof.
  intros Hm Hnext. rewrite (unit_of_work_call_mutating req next w Hm), Hnext.
  reflexivity.
Qed.

Lemma unit_of_work_rolls_back_on_exception_witness :
  is_mutating put_missing = true /\
  update_example_route put_missing (append_log [ABegin] demo_world)
    = (append_log [ABegin] demo_world,
       Raise (ExampleCommandRepository.not_found "e9")) /\
  unit_of_work_call put_missing update_example_route demo_world
    = (append_log [ARollback] (append_log [ABegin] demo_world),
       Raise (ExampleCommandRepository.not_found "e9")).
Proof.
  split; [reflexivity|]. split; [vm_compute; reflexivity|].
  apply unit_of_work_rolls_back_on_exception; [reflexivity|vm_compute; reflexivity].
Defined.

(* ------------------------------------------------------------------ *)
(** ** Ownership *)

(** C4 (the code): [OwnershipMiddleware.__call__] passes every request to
    the next stage, mutating or not; the extraction of the user and
    resource ids and the verification are commented out, so no request
    is ever refused. *)
Theorem ownership_call_always_forwards (req : Request) (next : Handler) (w : World) :
  ownership_call req next w = next req w.
Proof. unfold ownership_call. destruct (String.eqb _ _); reflexivity. Qed.

(** The failing input of C4: a PUT by [mallory] on [e1], owned by
    [user-123], reaches the next stage. *)
Lemma ownership_forwards_non_owner :
  ownership_call put_by_other_user (fun _ => ret (HttpResponse 204)) demo_world
    = (demo_world, Ok (HttpResponse 204)) /\
  is_mutating put_by_other_user = true /\
  we_owner_id e1_entity <> req_user_id put_by_other_user.
Proof. split; [reflexivity|split; [reflexivity|discriminate]]. Qed.

(* ------------------------------------------------------------------ *)
(** ** Steps of the service use cases *)

Lemma bind_ok {A B} (m : M A) (k : A -> M B) (w w' : World) (a : A) :
  m w = (w', Ok a) -> bind m k w = k a w'.
Proof. intros H. unfold bind. rewrite H. reflexivity. Qed.

Lemma bind_raise {A B} (m : M A) (k : A -> M B) (w w' : World) (e : exn) :
  m w = (w', Raise e) -> bind m k w = (w', Raise e).
Proof. intros H. unfold bind. rewrite H. reflexivity. Qed.

Lemma find_present (w : World) (p_id : string) (e : ExampleWriteEntity) :
  w_command_store w !! p_id = Some e ->
  CommandRepo.find_by_id_for_command_async p_id w
    = (w, Ok (ExampleMapper.to_model_from_write_entity e)).
Proof.
  intros H. unfold CommandRepo.find_by_id_for_command_async,
    ExampleCommandRepository.find_by_id_for_command_async.
  rewrite H. reflexivity.
Qed.

Lemma check_ownership_refuses (p_id : string) (m : ExampleModel) (u : string) (w : World) :
  m_owner_id m <> u ->
  ExampleService.check_ownership p_id m u w
    = (w, Raise (ServiceException UNAUTHORIZED [("id", p_id)])).
Proof.
  intros H. unfold ExampleService.check_ownership, validate_ownership.
  destruct (String.eqb_spec (m_owner_id m) u); [contradiction|reflexivity].
Qed.

Lemma check_ownership_accepts (p_id : string) (m : ExampleModel) (u : string) (w : World) :
  m_owner_id m = u -> ExampleService.check_ownership p_id m u w = (w, Ok tt).
Proof.
  intros H. unfold ExampleService.check_ownership, validate_ownership.
  rewrite H, String.eqb_refl. reflexivity.
Qed.

Lemma utcnow_step (w : World) : utcnow w = (tick w, Ok (w_clock w)).
Proof. reflexivity. Qed.

Lemma event_header_step (w : World) :
  ExampleService.event_header w
    = (tick (next_uuid w), Ok ("uuid-" +:+ show_nat (w_uuid w), w_clock w)).
Proof. reflexivity. Qed.

Lemma update_present (w : World) (m : ExampleModel) (x : ExampleWriteEntity) :
  w_command_store w !! m_id m = Some x ->
  CommandRepo.update_async m w
    = (set_command_store (<[m_id m := ExampleMapper.to_write_entity m]> (w_command_store w)) w,
       Ok tt).
Proof.
  intros H. unfold CommandRepo.update_async, ExampleCommandRepository.update_async.
  simpl. rewrite H. reflexivity.
Qed.

Lemma delete_present (w : World) (p_id : string) (x : ExampleWriteEntity) :
  w_command_store w !! p_id = Some x ->
  CommandRepo.delete_async p_id w
    = (set_command_store (delete p_id (w_command_store w)) w, Ok tt).
Proof.
  intros H. unfold CommandRepo.delete_async, ExampleCommandRepository.delete_async.
  rewrite H. reflexivity.
Qed.

(** Steps a use case over the ownership check of the model's own owner. *)
Ltac owner_passes_check :=
  match goal with
  | |- context [bind (ExampleService.check_ownership ?i ?m ?u) ?k ?w] =>
      rewrite (bind_ok (ExampleService.check_ownership i m u) k w w tt
                 (check_ownership_accepts i m u w eq_refl)); cbv beta
  end.

(** The four command use cases on a stored example, for a user who does
    not own it: each stops at the ownership check. *)
Lemma service_refuses_non_owner (w : World) (p_id p_user_id : string)
    (e : ExampleWriteEntity) (req : UpdateExampleRequest) :
  w_command_store w !! p_id = Some e -> we_owner_id e <> p_user_id ->
  ExampleService.update_example_async p_id req p_user_id w
    = (w, Raise (ServiceException UNAUTHORIZED [("id", p_id)])) /\
  ExampleService.delete_example_async p_id p_user_id w
    = (w, Raise (ServiceException UNAUTHORIZED [("id", p_id)])) /\
  ExampleService.activate_example_async p_id p_user_id w
    = (w, Raise (ServiceException UNAUTHORIZED [("id", p_id)])) /\
  ExampleService.deactivate_example_async p_id p_user_id w
    = (w, Raise (ServiceException UNAUTHORIZED [("id", p_id)])).
Proof.
  intros Hs Ho.
  unfold ExampleService.update_example_async, ExampleService.delete_example_async,
    ExampleService.activate_example_async, ExampleService.deactivate_example_async.
  repeat split;
    rewrite (bind_ok _ _ _ _ _ (find_present _ _ _ Hs)); cbv beta;
    apply bind_raise, check_ownership_refuses; exact Ho.
Qed.

(** [ErrorHandlingMiddleware.__call__] on each outcome of the next stage. *)
Lemma error_handling_step (req : Request) (next : Handler) (w : World) :
  error_handling_call req next w =
    match next req w with
    | (w', Ok r) => (w', Ok (Passed r))
    | (w', Raise (ServiceException c d)) =>
        (tick w', Ok (ErrorDto (mkErrorResponseDto (error_code_value c) (format_message c d)
                                  (w_clock w') "" "" (Some d))))
    | (w', Raise _) => (tick w', Ok (ErrorDto (internal_error_dto (w_clock w'))))
    end.
Proof.
  unfold error_handling_call, try_except, bind.
  destruct (next req w) as [w' [r|[c d|m|m]]]; reflexivity.
Qed.

Lemma find_absent (w : World) (p_id : string) :
  w_command_store w !! p_id = None ->
  CommandRepo.find_by_id_for_command_async p_id w
    = (w, Raise (ExampleCommandRepository.not_found p_id)).
Proof.
  intros H. unfold CommandRepo.find_by_id_for_command_async,
    ExampleCommandRepository.find_by_id_for_command_async.
  rewrite H. reflexivity.
Qed.

(** The command use cases on an identity absent from the command store:
    the repository's [ValueError] comes out unchanged, before any read of
    the clock or write. *)
Lemma service_absent_raises (w : World) (p_id : string) :
  w_command_store w !! p_id = None ->
  (forall u ureq, ExampleService.update_example_async p_id ureq u w
                  = (w, Raise (ExampleCommandRepository.not_found p_id))) /\
  (forall u, ExampleService.delete_example_async p_id u w
             = (w, Raise (ExampleCommandRepository.not_found p_id))) /\
  (forall u, ExampleService.activate_example_async p_id u w
             = (w, Raise (ExampleCommandRepository.not_found p_id))) /\
  (forall u, ExampleService.deactivate_example_async p_id u w
             = (w, Raise (ExampleCommandRepository.not_found p_id))).
Proof.
  intros H.
  unfold ExampleService.update_example_async, ExampleService.delete_example_async,
    ExampleService.activate_example_async, ExampleService.deactivate_example_async.
  repeat split; intros; apply bind_raise, find_absent; exact H.
Qed.

(* ------------------------------------------------------------------ *)
(** ** Missing identities on the command side *)

(** C7 (code bug): for an identity absent from the command store, the
    command repository's [find_by_id_for_command_async], [update_async]
    and [delete_async] raise [ValueError("Example <id> not found")], not
    the typed [NOT_FOUND] service exception.  The update, delete, activate
    and deactivate use cases pass this [ValueError] on unchanged (their
    [if model is None: raise ... NOT_FOUND] branches are never reached),
    so a PUT of such an identity through the pipeline is rolled back and
    answered with the generic [INTERNAL_ERROR] DTO, not a [not_found] one. *)
Theorem absent_id_raises_value_error (w : World) (p_id : string) :
  w_command_store w !! p_id = None ->
  ExampleCommandRepository.find_by_id_for_command_async p_id (w_command_store w)
    = Raise (ExampleCommandRepository.not_found p_id) /\
  (forall m, m_id m = p_id ->
     ExampleCommandRepository.update_async m (w_command_store w)
       = Raise (ExampleCommandRepository.not_found p_id)) /\
  ExampleCommandRepository.delete_async p_id (w_command_store w)
    = Raise (ExampleCommandRepository.not_found p_id) /\
  (forall u ureq, ExampleService.update_example_async p_id ureq u w
                  = (w, Raise (ExampleCommandRepository.not_found p_id))) /\
  (forall u, ExampleService.delete_example_async p_id u w
             = (w, Raise (ExampleCommandRepository.not_found p_id))) /\
  (forall u, ExampleService.activate_example_async p_id u w
             = (w, Raise (ExampleCommandRepository.not_found p_id))) /\
  (forall u, ExampleService.deactivate_example_async p_id u w
             = (w, Raise (ExampleCommandRepository.not_found p_id))) /\
  (forall req, req_method req = "PUT" -> req_path_id req = Some p_id ->
     update_request_validate
       (mkUpdateExampleRequest (req_body_name req) (req_body_description req)) = None ->
     pipeline update_example_route req w =
       (tick (append_log [ARollback] (append_log [ABegin] w)),
        Ok (ErrorDto (internal_error_dto (w_clock w))))).
Proof.
  intros Habs.
  destruct (service_absent_raises w p_id Habs) as (Hu & Hd & Ha & Hda).
  split; [unfold ExampleCommandRepository.find_by_id_for_command_async; rewrite Habs; reflexivity|].
  split.
  { intros m Hm. unfold ExampleCommandRepository.update_async. simpl.
    rewrite Hm, Habs. reflexivity. }
  split; [unfold ExampleCommandRepository.delete_async; rewrite Habs; reflexivity|].
  split; [exact Hu|]. split; [exact Hd|]. split; [exact Ha|]. split; [exact Hda|].
  intros req Hm Hp Hv.
  assert (Hmut : is_mutating req = true) by (unfold is_mutating; rewrite Hm; reflexivity).
  assert (Hroute : update_example_route req (append_log [ABegin] w)
                   = (append_log [ABegin] w, Raise (ExampleCommandRepository.not_found p_id))).
  { unfold update_example_route. rewrite Hv, Hp. simpl.
    apply bind_raise.
    apply (service_absent_raises (append_log [ABegin] w) p_id); exact Habs. }
  unfold pipeline. rewrite error_handling_step.
  unfold ownership_call. destruct (String.eqb _ _);
    rewrite (unit_of_work_call_mutating req _ w Hmut), Hroute; reflexivity.
Qed.

Lemma absent_id_raises_value_error_witness :
  w_command_store demo_world !! "e9" = None /\
  pipeline update_example_route put_missing demo_world =
    (tick (append_log [ARollback] (append_log [ABegin] demo_world)),
     Ok (ErrorDto (internal_error_dto 100))).
Proof.
  split; [reflexivity|].
  destruct (absent_id_raises_value_error demo_world "e9" ltac:(reflexivity))
    as (_ & _ & _ & _ & _ & _ & _ & H).
  exact (H put_missing eq_refl eq_refl eq_refl).
Defined.

(* ------------------------------------------------------------------ *)
(** ** Ownership in the command use cases *)

(** A user who does not own a stored example cannot update, delete,
    activate or deactivate it: each use case raises [UNAUTHORIZED] with
    the id as detail, and writes nothing: the command and query stores,
    the subscriptions and the log (no event delivered) are as they were. *)
Theorem non_owner_commands_refused (w : World) (p_id p_user_id : string)
    (e : ExampleWriteEntity) (req : UpdateExampleRequest) :
  w_command_store w !! p_id = Some e -> we_owner_id e <> p_user_id ->
  snd (ExampleService.update_example_async p_id req p_user_id w)
    = Raise (ServiceException UNAUTHORIZED [("id", p_id)]) /\
  same_stores_and_log w (fst (ExampleService.update_example_async p_id req p_user_id w)) /\
  snd (ExampleService.delete_example_async p_id p_user_id w)
    = Raise (ServiceException UNAUTHORIZED [("id", p_id)]) /\
  same_stores_and_log w (fst (ExampleService.delete_example_async p_id p_user_id w)) /\
  snd (ExampleService.activate_example_async p_id p_user_id w)
    = Raise (ServiceException UNAUTHORIZED [("id", p_id)]) /\
  same_stores_and_log w (fst (ExampleService.activate_example_async p_id p_user_id w)) /\
  snd (ExampleService.deactivate_example_async p_id p_user_id w)
    = Raise (ServiceException UNAUTHORIZED [("id", p_id)]) /\
  same_stores_and_log w (fst (ExampleService.deactivate_example_async p_id p_user_id w)).
Proof.
  intros Hs Ho.
  destruct (service_refuses_non_owner w p_id p_user_id e req Hs Ho) as (H1 & H2 & H3 & H4).
  rewrite H1, H2, H3, H4. unfold same_stores_and_log. simpl.
  repeat split.
Qed.

Lemma non_owner_commands_refused_witness :
  w_command_store demo_world !! "e1" = Some e1_entity /\
  we_owner_id e1_entity <> "mallory" /\
  snd (ExampleService.update_example_async "e1" (mkUpdateExampleRequest "Gadget" "") "mallory"
         demo_world)
    = Raise (ServiceException UNAUTHORIZED [("id", "e1")]).
Proof.
  split; [reflexivity|]. split; [discriminate|].
  destruct (non_owner_commands_refused demo_world "e1" "mallory" e1_entity
              (mkUpdateExampleRequest "Gadget" "") ltac:(reflexivity) ltac:(discriminate))
    as [H _].
  exact H.
Defined.

(** Through the whole pipeline, a DELETE of a stored example that the
    controller's user does not own is answered with the bare [unauthorized]
    error DTO: its message names the id, its details are the id, its
    timestamp is the clock read after the handler, path and request id are
    empty, and no status is attached to it.  The unit of work is begun and
    rolled back, and the command store is unchanged. *)
Theorem delete_by_non_owner_unauthorized_dto (w : World) (req : Request) (p_id : string)
    (e : ExampleWriteEntity) :
  req_method req = "DELETE" -> req_path_id req = Some p_id ->
  w_command_store w !! p_id = Some e -> we_owner_id e <> controller_user_id ->
  pipeline delete_example_route req w =
    (tick (append_log [ARollback] (append_log [ABegin] w)),
     Ok (ErrorDto
           (mkErrorResponseDto "unauthorized"
              ("You are not authorized to access example '" +:+ p_id +:+ "'")
              (w_clock w) "" "" (Some [("id", p_id)])))).
Proof.
  intros Hm Hp Hs Ho.
  assert (Hmut : is_mutating req = true) by (unfold is_mutating; rewrite Hm; reflexivity).
  assert (Hroute : delete_example_route req (append_log [ABegin] w)
                   = (append_log [ABegin] w,
                      Raise (ServiceException UNAUTHORIZED [("id", p_id)]))).
  { unfold delete_example_route. rewrite Hp. simpl.
    apply bind_raise.
    apply (service_refuses_non_owner (append_log [ABegin] w) p_id controller_user_id e
             (mkUpdateExampleRequest "" "")); assumption. }
  unfold pipeline. rewrite error_handling_step.
  unfold ownership_call. destruct (String.eqb _ _);
    rewrite (unit_of_work_call_mutating req _ w Hmut), Hroute; reflexivity.
Qed.

Lemma delete_by_non_owner_unauthorized_dto_witness :
  let req := mkRequest "DELETE" "/api/v1/examples/e2" "user-123" (Some "e2") "" "" in
  let w := mkWorld (<["e2" := mkExampleWriteEntity "e2" 5 6 0 "Widget" "" "mallory" true]> ∅)
             [] ∅ [] 100 0 in
  req_method req = "DELETE" /\ req_path_id req = Some "e2" /\
  w_command_store w !! "e2" = Some (mkExampleWriteEntity "e2" 5 6 0 "Widget" "" "mallory" true) /\
  pipeline delete_example_route req w =
    (tick (append_log [ARollback] (append_log [ABegin] w)),
     Ok (ErrorDto
           (mkErrorResponseDto "unauthorized"
              ("You are not authorized to access example '" +:+ "e2" +:+ "'")
              100 "" "" (Some [("id", "e2")])))).
Proof.
  intros req w. split; [reflexivity|]. split; [reflexivity|]. split; [reflexivity|].
  apply (delete_by_non_owner_unauthorized_dto w req "e2"
           (mkExampleWriteEntity "e2" 5 6 0 "Widget" "" "mallory" true));
    [reflexivity|reflexivity|reflexivity|discriminate].
Defined.

(* ------------------------------------------------------------------ *)
(** ** The owner's commands *)

(** An update by the owner with a valid name (not blank, at most 100
    characters) of an example stored under its own id (with a non-blank
    id and owner) succeeds.  The stored projection gets the new name and
    description and the clock reading as [updated_at]; [created_at],
    owner and active flag are kept, and the version is 0.  Then one
    [ExampleUpdatedEvent] is delivered to each subscriber of
    [example.updated].  It carries a fresh event id, the next clock
    reading and an empty correlation id. *)
Theorem owner_update_persists_and_publishes (w : World) (p_id : string)
    (e : ExampleWriteEntity) (req : UpdateExampleRequest) :
  w_command_store w !! p_id = Some e -> we_id e = p_id ->
  py_blank p_id = false -> py_blank (we_owner_id e) = false ->
  py_blank (ur_name req) = false -> Z.ltb 100 (py_len (ur_name req)) = false ->
  let r := ExampleService.update_example_async p_id req (we_owner_id e) w in
  snd r = Ok tt /\
  w_command_store (fst r)
    = <[p_id := mkExampleWriteEntity p_id (we_created_at e) (w_clock w) 0
                  (ur_name req) (ur_description req) (we_owner_id e) (we_is_active e)]>
        (w_command_store w) /\
  w_log (fst r)
    = (w_log w ++
       map (fun h => ADeliver h "example.updated"
                       (ExampleUpdatedEvent ("uuid-" +:+ show_nat (w_uuid w)) (w_clock w + 1)
                          "" p_id (ur_name req)))
         (default [] (w_subscribers w !! "example.updated")))%list.
Proof.
  intros Hs Hid Hidb Hob Hn Hl r.
  destruct e as [i c u v n d o b]. simpl in *. subst i.
  assert (Hr : r = (append_log
                      (map (fun h => ADeliver h "example.updated"
                               (ExampleUpdatedEvent ("uuid-" +:+ show_nat (w_uuid w))
                                  (w_clock w + 1) "" p_id (ur_name req)))
                         (default [] (w_subscribers w !! "example.updated")))
                      (tick (next_uuid
                         (set_command_store
                            (<[p_id := mkExampleWriteEntity p_id c (w_clock w) 0
                                         (ur_name req) (ur_description req) o b]>
                               (w_command_store w)) (tick w)))),
                    Ok tt)).
  { unfold r, ExampleService.update_example_async.
    rewrite (bind_ok _ _ _ _ _ (find_present _ _ _ Hs)). cbv beta.
    owner_passes_check.
    rewrite (bind_ok _ _ _ _ _ (utcnow_step _)). cbv beta.
    unfold ExampleMapper.update_model_from_request, update_details.
    rewrite Hn. unfold validate. simpl. rewrite Hidb, Hn, Hl, Hob.
    rewrite (bind_ok _ _ _ _ _ (update_present (tick w)
               (mkExampleModel p_id c (w_clock w) (ur_name req) (ur_description req) o b)
               _ Hs)).
    cbv beta.
    rewrite (bind_ok _ _ _ _ _ (event_header_step _)). cbv beta.
    rewrite publish_async_log. reflexivity. }
  rewrite Hr. repeat split.
Qed.

Lemma owner_update_persists_and_publishes_witness :
  w_command_store demo_world !! "e1" = Some e1_entity /\
  let r := ExampleService.update_example_async "e1" (mkUpdateExampleRequest "Gadget" "new")
             (we_owner_id e1_entity) demo_world in
  snd r = Ok tt /\
  w_command_store (fst r)
    = <["e1" := mkExampleWriteEntity "e1" 5 100 0 "Gadget" "new" "user-123" true]>
        (w_command_store demo_world) /\
  w_log (fst r)
    = (w_log demo_world ++
       map (fun h => ADeliver h "example.updated"
                       (ExampleUpdatedEvent ("uuid-" +:+ show_nat 0) (100 + 1) "" "e1" "Gadget"))
         (default [] (w_subscribers demo_world !! "example.updated")))%list.
Proof.
  split; [reflexivity|].
  apply (owner_update_persists_and_publishes demo_world "e1" e1_entity
           (mkUpdateExampleRequest "Gadget" "new")); reflexivity.
Defined.

(** An update whose name is blank raises [ValueError("Name cannot be
    empty")] after the ownership check: nothing is written to the command
    store and no event is delivered. *)
Theorem blank_name_update_writes_nothing (w : World) (p_id : string)
    (e : ExampleWriteEntity) (req : UpdateExampleRequest) :
  w_command_store w !! p_id = Some e -> py_blank (ur_name req) = true ->
  let r := ExampleService.update_example_async p_id req (we_owner_id e) w in
  snd r = Raise (ValueError "Name cannot be empty") /\
  w_command_store (fst r) = w_command_store w /\
  w_log (fst r) = w_log w.
Proof.
  intros Hs Hn r.
  assert (Hr : r = (tick w, Raise (ValueError "Name cannot be empty"))).
  { unfold r, ExampleService.update_example_async.
    rewrite (bind_ok _ _ _ _ _ (find_present _ _ _ Hs)). cbv beta.
    owner_passes_check.
    rewrite (bind_ok _ _ _ _ _ (utcnow_step _)). cbv beta.
    unfold ExampleMapper.update_model_from_request, update_details.
    rewrite Hn. reflexivity. }
  rewrite Hr. repeat split.
Qed.

Lemma blank_name_update_writes_nothing_witness :
  w_command_store demo_world !! "e1" = Some e1_entity /\
  py_blank (ur_name (mkUpdateExampleRequest "   " "")) = true /\
  let r := ExampleService.update_example_async "e1" (mkUpdateExampleRequest "   " "")
             (we_owner_id e1_entity) demo_world in
  snd r = Raise (ValueError "Name cannot be empty") /\
  w_command_store (fst r) = w_command_store demo_world /\
  w_log (fst r) = w_log demo_world.
Proof.
  split; [reflexivity|]. split; [reflexivity|].
  apply blank_name_update_writes_nothing; reflexivity.
Defined.

(** A delete by the owner removes the id from the command store (after
    it, [exists_async] is false and [find_by_id_for_command_async] raises)
    and delivers one [ExampleDeletedEvent] with an empty correlation id to
    each subscriber of [example.deleted]. *)
Theorem owner_delete_removes_and_publishes (w : World) (p_id : string)
    (e : ExampleWriteEntity) :
  w_command_store w !! p_id = Some e ->
  let r := ExampleService.delete_example_async p_id (we_owner_id e) w in
  snd r = Ok tt /\
  w_command_store (fst r) = delete p_id (w_command_store w) /\
  ExampleCommandRepository.exists_async p_id (w_command_store (fst r)) = false /\
  ExampleCommandRepository.find_by_id_for_command_async p_id (w_command_store (fst r))
    = Raise (ExampleCommandRepository.not_found p_id) /\
  w_log (fst r)
    = (w_log w ++
       map (fun h => ADeliver h "example.deleted"
                       (ExampleDeletedEvent ("uuid-" +:+ show_nat (w_uuid w)) (w_clock w) "" p_id))
         (default [] (w_subscribers w !! "example.deleted")))%list.
Proof.
  intros Hs r.
  assert (Hr : r = (append_log
                      (map (fun h => ADeliver h "example.deleted"
                               (ExampleDeletedEvent ("uuid-" +:+ show_nat (w_uuid w))
                                  (w_clock w) "" p_id))
                         (default [] (w_subscribers w !! "example.deleted")))
                      (tick (next_uuid
                         (set_command_store (delete p_id (w_command_store w)) w))),
                    Ok tt)).
  { unfold r, ExampleService.delete_example_async.
    rewrite (bind_ok _ _ _ _ _ (find_present _ _ _ Hs)). cbv beta.
    owner_passes_check.
    rewrite (bind_ok _ _ _ _ _ (delete_present _ _ _ Hs)). cbv beta.
    rewrite (bind_ok _ _ _ _ _ (event_header_step _)). cbv beta.
    rewrite publish_async_log. reflexivity. }
  rewrite Hr. simpl.
  assert (Hd : delete p_id (w_command_store w) !! p_id = None) by apply lookup_delete_eq.
  split; [reflexivity|]. split; [reflexivity|]. split; [|split; [|reflexivity]].
  - unfold ExampleCommandRepository.exists_async. rewrite Hd.
    apply bool_decide_eq_false. intros [? H]. discriminate.
  - unfold ExampleCommandRepository.find_by_id_for_command_async. rewrite Hd. reflexivity.
Qed.

Lemma owner_delete_removes_and_publishes_witness :
  w_command_store demo_world !! "e1" = Some e1_entity /\
  let r := ExampleService.delete_example_async "e1" (we_owner_id e1_entity) demo_world in
  snd r = Ok tt /\
  w_command_store (fst r) = delete "e1" (w_command_store demo_world) /\
  ExampleCommandRepository.exists_async "e1" (w_command_store (fst r)) = false /\
  ExampleCommandRepository.find_by_id_for_command_async "e1" (w_command_store (fst r))
    = Raise (ExampleCommandRepository.not_found "e1") /\
  w_log (fst r)
    = (w_log demo_world ++
       map (fun h => ADeliver h "example.deleted"
                       (ExampleDeletedEvent ("uuid-" +:+ show_nat 0) 100 "" "e1"))
         (default [] (w_subscribers demo_world !! "example.deleted")))%list.
Proof.
  split; [reflexivity|].
  apply owner_delete_removes_and_publishes. reflexivity.
Defined.

(** Activation and deactivation by the owner of an example stored under
    its own id set the stored [is_active] flag to true, respectively
    false, and [updated_at] to the clock reading, keeping the other
    fields (version 0).  Neither publishes an event: the log is
    unchanged. *)
Theorem owner_activation_sets_flag_without_event (w : World) (p_id : string)
    (e : ExampleWriteEntity) :
  w_command_store w !! p_id = Some e -> we_id e = p_id ->
  let stored b := mkExampleWriteEntity p_id (we_created_at e) (w_clock w) 0
                    (we_name e) (we_description e) (we_owner_id e) b in
  let ra := ExampleService.activate_example_async p_id (we_owner_id e) w in
  let rd := ExampleService.deactivate_example_async p_id (we_owner_id e) w in
  snd ra = Ok tt /\
  w_command_store (fst ra) = <[p_id := stored true]> (w_command_store w) /\
  w_log (fst ra) = w_log w /\
  snd rd = Ok tt /\
  w_command_store (fst rd) = <[p_id := stored false]> (w_command_store w) /\
  w_log (fst rd) = w_log w.
Proof.
  intros Hs Hid stored ra rd.
  destruct e as [i c u v n d o b]. simpl in *. subst i.
  assert (Hstep : forall (f : ExampleModel -> Z -> ExampleModel) flag,
            (forall m now, f m now = set_active flag m now) ->
            (model <- CommandRepo.find_by_id_for_command_async p_id ;;
             ExampleService.check_ownership p_id model o ;;;
             now <- utcnow ;;
             CommandRepo.update_async (f model now)) w
            = (set_command_store (<[p_id := stored flag]> (w_command_store w)) (tick w), Ok tt)).
  { intros f flag Hf.
    rewrite (bind_ok _ _ _ _ _ (find_present _ _ _ Hs)). cbv beta.
    owner_passes_check.
    rewrite (bind_ok _ _ _ _ _ (utcnow_step _)). cbv beta.
    rewrite Hf.
    exact (update_present (tick w)
             (set_active flag (ExampleMapper.to_model_from_write_entity
                                 (mkExampleWriteEntity p_id c u v n d o b)) (w_clock w))
             _ Hs). }
  unfold ra, rd, ExampleService.activate_example_async, ExampleService.deactivate_example_async.
  rewrite (Hstep activate true) by reflexivity.
  rewrite (Hstep deactivate false) by reflexivity.
  repeat split.
Qed.

Lemma owner_activation_sets_flag_without_event_witness :
  w_command_store demo_world !! "e1" = Some e1_entity /\
  let stored b := mkExampleWriteEntity "e1" 5 100 0 "Widget" "" "user-123" b in
  let ra := ExampleService.activate_example_async "e1" "user-123" demo_world in
  let rd := ExampleService.deactivate_example_async "e1" "user-123" demo_world in
  snd ra = Ok tt /\
  w_command_store (fst ra) = <["e1" := stored true]> (w_command_store demo_world) /\
  w_log (fst ra) = w_log demo_world /\
  snd rd = Ok tt /\
  w_command_store (fst rd) = <["e1" := stored false]> (w_command_store demo_world) /\
  w_log (fst rd) = w_log demo_world.
Proof.
  split; [reflexivity|].
  apply (owner_activation_sets_flag_without_event demo_world "e1" e1_entity); reflexivity.
Defined.

(* ------------------------------------------------------------------ *)
(** ** The read side *)


Lemma pres_ret {A} (a : A) : preserves_query_store (ret a).
Proof. intros w. reflexivity. Qed.

Lemma pres_raise {A} (e : exn) : preserves_query_store (@raise A e).
Proof. intros w. reflexivity. Qed.

Lemma pres_lift {A} (r : Result A) : preserves_query_store (lift r).
Proof. intros w. reflexivity. Qed.

Lemma pres_uuid4 : preserves_query_store uuid4.
Proof. intros w. reflexivity. Qed.

Lemma pres_utcnow : preserves_query_store utcnow.
Proof. intros w. reflexivity. Qed.

Lemma pres_publish (ev : DomainEvent) (t : string) :
  preserves_query_store (InMemoryEventBus.publish_async ev t).
Proof. intros w. reflexivity. Qed.

Lemma pres_save (m : ExampleModel) : preserves_query_store (CommandRepo.save_async m).
Proof. intros w. reflexivity. Qed.

Lemma pres_update (m : ExampleModel) : preserves_query_store (CommandRepo.update_async m).
Proof.
  intros w. unfold CommandRepo.update_async.
  destruct (ExampleCommandRepository.update_async _ _); reflexivity.
Qed.

Lemma pres_delete (i : string) : preserves_query_store (CommandRepo.delete_async i).
Proof.
  intros w. unfold CommandRepo.delete_async.
  destruct (ExampleCommandRepository.delete_async _ _); reflexivity.
Qed.

Lemma pres_find (i : string) :
  preserves_query_store (CommandRepo.find_by_id_for_command_async i).
Proof. intros w. reflexivity. Qed.

Lemma pres_check (i : string) (m : ExampleModel) (u : string) :
  preserves_query_store (ExampleService.check_ownership i m u).
Proof.
  intros w. unfold ExampleService.check_ownership.
  destruct (validate_ownership m u); reflexivity.
Qed.

Create HintDb query_store.
#[export] Hint Resolve pres_ret pres_raise pres_lift pres_uuid4 pres_utcnow pres_publish
  pres_save pres_update pres_delete pres_find pres_check : query_store.











(* ------------------------------------------------------------------ *)
(** ** The middleware stack *)

(** A GET passes through the ownership and unit-of-work middleware
    untouched: the pipeline is the error handling around the route alone,
    with no begin, commit or rollback. *)
Theorem get_requests_bypass_transactions (route : Handler) (req : Request) (w : World) :
  req_method req = "GET" -> pipeline route req w = error_handling_call req route w.
Proof.
  intros Hm.
  assert (Hmut : is_mutating req = false) by (unfold is_mutating; rewrite Hm; reflexivity).
  assert (H : ownership_call req (fun r2 => unit_of_work_call r2 route) = route req).
  { unfold ownership_call. destruct (String.eqb _ _);
      unfold unit_of_work_call; rewrite Hmut; reflexivity. }
  unfold pipeline, error_handling_call. cbv beta. rewrite H. reflexivity.
Qed.

Lemma get_requests_bypass_transactions_witness :
  let req := mkRequest "GET" "/api/v1/examples/e1" "user-123" (Some "e1") "" "" in
  req_method req = "GET" /\
  pipeline get_example_route req demo_world = error_handling_call req get_example_route demo_world.
Proof.
  intros req. split; [reflexivity|].
  apply get_requests_bypass_transactions. reflexivity.
Defined.

(** [ErrorHandlingMiddleware.__call__] never lets an exception out: it
    always returns a value; a response of the next stage is passed on
    unchanged with the next stage's world; a [ServiceException] becomes
    the DTO with its code, formatted message and details; every other
    exception, whatever its message, becomes the same generic
    [INTERNAL_ERROR] DTO with no details.  On both error paths the only
    further effect is the clock read for the DTO's timestamp, and no
    status is attached to the DTO. *)
Theorem error_handling_never_raises (req : Request) (next : Handler) (w : World) :
  (exists r, snd (error_handling_call req next w) = Ok r) /\
  (forall w' r, next req w = (w', Ok r) ->
     error_handling_call req next w = (w', Ok (Passed r))) /\
  (forall w' c d, next req w = (w', Raise (ServiceException c d)) ->
     error_handling_call req next w =
       (tick w', Ok (ErrorDto (mkErrorResponseDto (error_code_value c) (format_message c d)
                                 (w_clock w') "" "" (Some d))))) /\
  (forall w' e, next req w = (w', Raise e) -> (forall c d, e <> ServiceException c d) ->
     error_handling_call req next w = (tick w', Ok (ErrorDto (internal_error_dto (w_clock w'))))).
Proof.
  rewrite error_handling_step.
  destruct (next req w) as [w0 [r|[c d|m|m]]];
    (split; [eexists; reflexivity|]);
    repeat split; intros * H; try intros Hne; inversion H; subst; try reflexivity;
    exfalso; eapply Hne; reflexivity.
Qed.

Lemma error_handling_never_raises_witness :
  (exists r, snd (error_handling_call put_missing update_example_route demo_world) = Ok r) /\
  (forall w' e, update_example_route put_missing demo_world = (w', Raise e) ->
     (forall c d, e <> ServiceException c d) ->
     error_handling_call put_missing update_example_route demo_world
       = (tick w', Ok (ErrorDto (internal_error_dto (w_clock w'))))).
Proof.
  destruct (error_handling_never_raises put_missing update_example_route demo_world)
    as (H1 & _ & _ & H4).
  exact (conj H1 H4).
Defined.

Lemma ascii_upper_idem (c : ascii) : ascii_upper (ascii_upper c) = ascii_upper c.
Proof.
  destruct c as [b0 b1 b2 b3 b4 b5 b6 b7].
  destruct b0, b1, b2, b3, b4, b5, b6, b7; reflexivity.
Qed.

Lemma py_upper_idem (s : string) : py_upper (py_upper s) = py_upper s.
Proof. induction s as [|c s IH]; simpl; [reflexivity|]. rewrite ascii_upper_idem, IH. reflexivity. Qed.

(** [_map_error_code_to_status] ignores case (it upper-cases its input
    first), and on the [.value] of each [ExampleErrorCode] it gives a
    client-error status, never 500: 404 for [NOT_FOUND], 400 for
    [VALIDATION_FAILED], 409 for [CONFLICT] and [ALREADY_EXISTS], 401 for
    [UNAUTHORIZED]. *)
Theorem error_status_mapping (s : string) (c : ExampleErrorCode) :
  map_error_code_to_status (py_upper s) = map_error_code_to_status s /\
  map_error_code_to_status (error_code_value c)
    = match c with
      | NOT_FOUND => 404
      | VALIDATION_FAILED => 400
      | CONFLICT | ALREADY_EXISTS => 409
      | UNAUTHORIZED => 401
      end.
Proof.
  split.
  - unfold map_error_code_to_status. rewrite py_upper_idem. reflexivity.
  - destruct c; reflexivity.
Qed.

Lemma py_replace_fuel_absent (fuel : nat) (old new s : string) :
  py_contains old s = false -> py_replace_fuel fuel old new s = s.
Proof.
  revert s. induction fuel as [|fuel IH]; intros s H; [reflexivity|].
  destruct s as [|c rest]; [reflexivity|]. simpl.
  simpl in H. apply orb_false_iff in H as [Hp Hr].
  rewrite Hp. simpl. rewrite IH by exact Hr. reflexivity.
Qed.

(** [_format_message] leaves the template of a code unchanged when no
    detail key occurs in it as a placeholder (in particular with no
    details); a value substituted for [{id}] is not scanned again, so the
    NOT_FOUND and UNAUTHORIZED messages embed any id verbatim. *)
Theorem format_message_substitution (c : ExampleErrorCode) (details : list (string * string))
    (p_id : string) :
  (Forall (fun kv => py_contains ("{" +:+ fst kv +:+ "}") (message_template c) = false) details ->
   format_message c details = message_template c) /\
  format_message NOT_FOUND [("id", p_id)] = "Example '" +:+ p_id +:+ "' not found" /\
  format_message UNAUTHORIZED [("id", p_id)]
    = "You are not authorized to access example '" +:+ p_id +:+ "'".
Proof.
  split; [|split; reflexivity].
  intros Hall. unfold format_message.
  induction Hall as [|kv details Hkv Hall IH]; [reflexivity|].
  simpl. unfold py_replace. rewrite py_replace_fuel_absent by exact Hkv. exact IH.
Qed.

Lemma format_message_substitution_witness :
  (Forall (fun kv => py_contains ("{" +:+ fst kv +:+ "}") (message_template NOT_FOUND) = false)
     [("name", "Widget")] ->
   format_message NOT_FOUND [("name", "Widget")] = message_template NOT_FOUND) /\
  format_message NOT_FOUND [("id", "{id}")] = "Example '" +:+ "{id}" +:+ "' not found" /\
  format_message UNAUTHORIZED [("id", "{id}")]
    = "You are not authorized to access example '" +:+ "{id}" +:+ "'".
Proof. exact (format_message_substitution NOT_FOUND [("name", "Widget")] "{id}"). Defined.

(* ------------------------------------------------------------------ *)
(** ** Command repository *)

(** A successful [update_async m] requires [m.id] to be stored; afterwards
    [find_by_id_for_command_async m.id] returns [m] field for field, and
    every other id keeps its projection. *)
Theorem update_async_round_trip (store store' : CommandStore) (m : ExampleModel) :
  ExampleCommandRepository.update_async m store = Ok store' ->
  is_Some (store !! m_id m) /\
  ExampleCommandRepository.find_by_id_for_command_async (m_id m) store' = Ok m /\
  (forall k, k <> m_id m -> store' !! k = store !! k).
Proof.
  unfold ExampleCommandRepository.update_async. simpl.
  destruct (store !! m_id m) as [x|] eqn:E; [|discriminate].
  intros H. injection H as <-.
  split; [eexists; reflexivity|]. split.
  - unfold ExampleCommandRepository.find_by_id_for_command_async.
    rewrite lookup_insert_eq. rewrite hydrate_to_write_entity. reflexivity.
  - intros k Hk. apply lookup_insert_ne. congruence.
Qed.

Lemma update_async_round_trip_witness :
  let m := hydrate "e1" "Gadget" "" "user-123" false 5 9 in
  ExampleCommandRepository.update_async m (w_command_store demo_world)
    = Ok (<["e1" := ExampleMapper.to_write_entity m]> (w_command_store demo_world)) /\
  is_Some (w_command_store demo_world !! m_id m) /\
  ExampleCommandRepository.find_by_id_for_command_async (m_id m)
    (<["e1" := ExampleMapper.to_write_entity m]> (w_command_store demo_world)) = Ok m /\
  (forall k, k <> m_id m ->
     (<["e1" := ExampleMapper.to_write_entity m]> (w_command_store demo_world)) !! k
       = w_command_store demo_world !! k).
Proof.
  intros m. split; [reflexivity|].
  apply update_async_round_trip. reflexivity.
Defined.

(** A successful [delete_async p_id] requires [p_id] to be stored;
    afterwards [exists_async p_id] is false, a command lookup raises
    [ValueError("Example <id> not found")], and every other id keeps its
    projection. *)
Theorem delete_async_removes (store store' : CommandStore) (p_id : string) :
  ExampleCommandRepository.delete_async p_id store = Ok store' ->
  is_Some (store !! p_id) /\
  ExampleCommandRepository.exists_async p_id store' = false /\
  ExampleCommandRepository.find_by_id_for_command_async p_id store'
    = Raise (ExampleCommandRepository.not_found p_id) /\
  (forall k, k <> p_id -> store' !! k = store !! k).
Proof.
  unfold ExampleCommandRepository.delete_async.
  destruct (store !! p_id) as [x|] eqn:E; [|discriminate].
  intros H. injection H as <-.
  assert (Hd : delete p_id store !! p_id = None) by apply lookup_delete_eq.
  split; [eexists; reflexivity|]. split; [|split].
  - unfold ExampleCommandRepository.exists_async. rewrite Hd.
    apply bool_decide_eq_false. intros [? H]. discriminate.
  - unfold ExampleCommandRepository.find_by_id_for_command_async. rewrite Hd. reflexivity.
  - intros k Hk. apply lookup_delete_ne. congruence.
Qed.

Lemma delete_async_removes_witness :
  ExampleCommandRepository.delete_async "e1" (w_command_store demo_world)
    = Ok (delete "e1" (w_command_store demo_world)) /\
  is_Some (w_command_store demo_world !! "e1") /\
  ExampleCommandRepository.exists_async "e1" (delete "e1" (w_command_store demo_world)) = false /\
  ExampleCommandRepository.find_by_id_for_command_async "e1"
    (delete "e1" (w_command_store demo_world))
    = Raise (ExampleCommandRepository.not_found "e1") /\
  (forall k, k <> "e1" ->
     delete "e1" (w_command_store demo_world) !! k = w_command_store demo_world !! k).
Proof.
  split; [reflexivity|].
  apply delete_async_removes. reflexivity.
Defined.

(* ------------------------------------------------------------------ *)
(** ** Event bus *)

(** [subscribe_async(t, h)] appends [h] to the handlers of topic [t] only:
    a later [publish_async] on [t] calls the earlier handlers in their
    subscription order, then [h], each once with the event; the other
    topics keep their handlers. *)
Theorem subscribe_then_publish (w : World) (t : string) (h : nat) (ev : DomainEvent) :
  let w1 := fst (InMemoryEventBus.subscribe_async t h w) in
  w_log (fst (InMemoryEventBus.publish_async ev t w1))
    = (w_log w ++ map (fun h' => ADeliver h' t ev)
                    (default [] (w_subscribers w !! t) ++ [h]))%list /\
  (forall t', t' <> t -> w_subscribers w1 !! t' = w_subscribers w !! t').
Proof.
  intros w1. split.
  - unfold w1. simpl. rewrite lookup_insert_eq. reflexivity.
  - intros t' Hne. unfold w1. simpl. apply lookup_insert_ne. congruence.
Qed.

Lemma subscribe_then_publish_witness :
  let w1 := fst (InMemoryEventBus.subscribe_async "example.updated" 8 demo_world) in
  w_log (fst (InMemoryEventBus.publish_async
                (ExampleDeletedEvent "x" 0 "" "e1") "example.updated" w1))
    = [ADeliver 7 "example.updated" (ExampleDeletedEvent "x" 0 "" "e1");
       ADeliver 8 "example.updated" (ExampleDeletedEvent "x" 0 "" "e1")] /\
  (forall t', t' <> "example.updated" -> w_subscribers w1 !! t' = w_subscribers demo_world !! t').
Proof.
  destruct (subscribe_then_publish demo_world "example.updated" 8
              (ExampleDeletedEvent "x" 0 "" "e1")) as [H1 H2].
  split; [rewrite H1; reflexivity|exact H2].
Defined.

(* ------------------------------------------------------------------ *)
(** ** The rest-ddd middleware *)

(** The rest-ddd [UnitOfWorkMiddleware] wraps every request, whatever its
    method, in begin, the next stage, then exactly one commit or rollback:
    commit when the response has a status below 400 or no [status_code]
    at all, rollback on a status of 400 or more and on an exception,
    which is re-raised unchanged. *)
Theorem rest_unit_of_work_wraps_every_request
    (req : Request) (next : RestDdd.RHandler) (w : World) :
  RestDdd.unit_of_work_call req next w =
    (append_log [rest_outcome_action (snd (next req (append_log [ABegin] w)))]
       (fst (next req (append_log [ABegin] w))),
     snd (next req (append_log [ABegin] w))).
Proof.
  unfold RestDdd.unit_of_work_call, RestDdd.rtry_except, RestDdd.rbind,
    RestDdd.rrecord, RestDdd.rret, RestDdd.rraise. simpl.
  destruct (next req (append_log [ABegin] w)) as [w1 [r|e]]; simpl.
  - destruct (Z.ltb (default 200 r) 400); reflexivity.
  - reflexivity.
Qed.

(** With the base class's extractors, the rest-ddd [OwnershipMiddleware]
    always raises [NotImplementedError] from [_extract_user_id], before it
    consults the verifier or calls the next stage, and changes nothing. *)
Theorem rest_ownership_base_always_raises (v : RestDdd.IOwnershipVerifier)
    (p_resource_type : string) (req : Request) (next : RestDdd.RHandler) (w : World) :
  RestDdd.ownership_call RestDdd.base_extractors v p_resource_type req next w
    = (w, RestDdd.RRaise (RestDdd.NotImplementedError "Must implement user ID extraction")).
Proof. reflexivity. Qed.

(** With extractors that return a user [u] and a non-empty resource id,
    the rest-ddd [OwnershipMiddleware] calls the next stage only when the
    resource is public or the verifier confirms [u] owns it; otherwise it
    raises [ForbiddenException] naming the user, the resource type and the
    id, without calling the next stage and with the world unchanged. *)
Theorem rest_ownership_fails_closed (ex : RestDdd.Extractors) (v : RestDdd.IOwnershipVerifier)
    (p_resource_type : string) (req : Request) (next : RestDdd.RHandler) (w : World)
    (u rid : string) :
  RestDdd.extract_user_id ex req = RestDdd.ROk u ->
  RestDdd.extract_resource_id ex req = RestDdd.ROk (Some rid) -> rid <> "" ->
  RestDdd.ownership_call ex v p_resource_type req next w =
    if RestDdd.is_public_resource_async v rid p_resource_type w
       || RestDdd.verify_ownership_async v u rid p_resource_type w
    then next req w
    else (w, RestDdd.RRaise (RestDdd.ForbiddenException
                ("User " +:+ u +:+ " does not have access to "
                 +:+ p_resource_type +:+ " " +:+ rid))).
Proof.
  intros Hu Hr Hne.
  unfold RestDdd.ownership_call, RestDdd.rbind, RestDdd.rlift. rewrite Hu, Hr.
  destruct (String.eqb_spec rid ""); [contradiction|].
  destruct (RestDdd.is_public_resource_async v rid p_resource_type w); [reflexivity|].
  reflexivity.
Qed.

Lemma rest_ownership_fails_closed_witness :
  RestDdd.extract_user_id request_extractors put_by_other_user = RestDdd.ROk "mallory" /\
  RestDdd.extract_resource_id request_extractors put_by_other_user = RestDdd.ROk (Some "e1") /\
  RestDdd.ownership_call request_extractors store_ownership_verifier "example"
    put_by_other_user (fun _ => RestDdd.rret (Some 204)) demo_world
    = (demo_world, RestDdd.RRaise (RestDdd.ForbiddenException
                     ("User " +:+ "mallory" +:+ " does not have access to "
                      +:+ "example" +:+ " " +:+ "e1"))).
Proof.
  split; [reflexivity|]. split; [reflexivity|].
  rewrite (rest_ownership_fails_closed request_extractors store_ownership_verifier "example"
             put_by_other_user (fun _ => RestDdd.rret (Some 204)) demo_world "mallory" "e1");
    [reflexivity|reflexivity|reflexivity|discriminate].
Defined.

(** When the extracted resource id is missing or empty (a list
    endpoint), the rest-ddd [OwnershipMiddleware] calls the next stage
    without consulting the verifier. *)
Theorem rest_ownership_skips_without_resource (ex : RestDdd.Extractors)
    (v : RestDdd.IOwnershipVerifier) (p_resource_type : string) (req : Request)
    (next : RestDdd.RHandler) (w : World) (u : string) :
  RestDdd.extract_user_id ex req = RestDdd.ROk u ->
  (RestDdd.extract_resource_id ex req = RestDdd.ROk None \/
   RestDdd.extract_resource_id ex req = RestDdd.ROk (Some "")) ->
  RestDdd.ownership_call ex v p_resource_type req next w = next req w.
Proof.
  intros Hu [Hr|Hr];
    unfold RestDdd.ownership_call, RestDdd.rbind, RestDdd.rlift; rewrite Hu, Hr;
    reflexivity.
Qed.

Lemma rest_ownership_skips_without_resource_witness :
  let req := mkRequest "GET" "/api/v1/examples" "mallory" None "" "" in
  RestDdd.extract_user_id request_extractors req = RestDdd.ROk "mallory" /\
  RestDdd.extract_resource_id request_extractors req = RestDdd.ROk None /\
  RestDdd.ownership_call request_extractors store_ownership_verifier "example" req
    (fun _ => RestDdd.rret (Some 200)) demo_world = (demo_world, RestDdd.ROk (Some 200)).
Proof.
  intros req. split; [reflexivity|]. split; [reflexivity|].
  rewrite (rest_ownership_skips_without_resource request_extractors store_ownership_verifier
             "example" req (fun _ => RestDdd.rret (Some 200)) demo_world "mallory");
    [reflexivity|reflexivity|left; reflexivity].
Defined.
